(** * Symetrics: variant score lookups, liftover and gene-level scores

    A shallow embedding of [symetrics_api.py] (class [Symetrics]).

    The program talks to two SQLite stores and to CSV constraint files.
    Those collaborators are gathered in a [World]; every method of
    [Symetrics] becomes a function of the world, the object and its
    arguments, returning in the monad [M]: the trace of observable events
    (queries executed, files read, lines logged or printed) together with
    either the value returned or the Python exception that reaches the
    caller. *)

From Stdlib Require Import List String Ascii ZArith QArith Bool.
From Stdlib Require Import Reals Lra.
Import ListNotations.
Open Scope string_scope.

(** ** Cells, rows and the keyed table store *)

(** A non-NULL SQLite cell, as [fetchall] hands it to Python: INTEGER,
    REAL (its payload stands for the stored number) or TEXT. *)
Inductive value : Type :=
  | VInt (n : Z)
  | VReal (q : Q)
  | VText (s : string).

(** The store's [=] on two cells of the same storage class. *)
Definition value_eqb (a b : value) : bool :=
  match a, b with
  | VInt x, VInt y => Z.eqb x y
  | VReal x, VReal y => Z.eqb (Qnum x) (Qnum y) && Pos.eqb (Qden x) (Qden y)
  | VText x, VText y => String.eqb x y
  | _, _ => false
  end.

(** A row maps column names to cells; a table is its rows in rowid order;
    a database maps table names to tables. *)
Definition Row : Type := list (string * value).
Definition Table : Type := list Row.
Definition Database : Type := list (string * Table).

(** A result row of a [SELECT]: the selected cells, in the order of the
    select list. *)
Definition tuple : Type := list value.

(** A Python dict with string keys, in insertion order. *)
Definition dict : Type := list (string * value).

Fixpoint assoc {A : Type} (k : string) (l : list (string * A)) : option A :=
  match l with
  | [] => None
  | (k', a) :: rest => if String.eqb k k' then Some a else assoc k rest
  end.

(** The statements the program builds are all of one shape,
    [SELECT c1, ..., cn FROM t WHERE k1 = v1 AND ... AND km = vm];
    a [Query] keeps that structure instead of the formatted text.  Column
    aliases ([AS CHR]) are dropped: [fetchall] returns positional tuples.
    Each [{variant._x}] slot is represented by the cell it denotes. *)
Record Query : Type := {
  q_select : list string;
  q_from : string;
  q_where : list (string * value)
}.

(** [None]: the row lacks a column the statement names. *)
Fixpoint eval_where (w : list (string * value)) (r : Row) : option bool :=
  match w with
  | [] => Some true
  | (c, v) :: rest =>
      match assoc c r, eval_where rest r with
      | Some x, Some b => Some (value_eqb x v && b)
      | _, _ => None
      end
  end.

Fixpoint project (cols : list string) (r : Row) : option tuple :=
  match cols with
  | [] => Some []
  | c :: rest =>
      match assoc c r, project rest r with
      | Some x, Some t => Some (x :: t)
      | _, _ => None
      end
  end.

Fixpoint scan (q : Query) (rows : Table) : option (list tuple) :=
  match rows with
  | [] => Some []
  | r :: rest =>
      match eval_where (q_where q) r, project (q_select q) r, scan q rest with
      | Some b, Some t, Some ts => Some (if b then t :: ts else ts)
      | _, _, _ => None
      end
  end.

(** [cursor.execute(q); cursor.fetchall()] on an open store.
    [None] stands for [sqlite3.Error] (no such table, no such column). *)
Definition execute (db : Database) (q : Query) : option (list tuple) :=
  match assoc (q_from q) db with
  | None => None
  | Some t => scan q t
  end.

(** ** Exceptions, events and the monad of a method call *)

Inductive exn : Type :=
  | sqlite3_Error
  | IndexError
  | AttributeError
  | ValueError
  | KeyError
  | TypeError
  | FileNotFoundError.

Inductive outcome (A : Type) : Type :=
  | Returned (a : A)
  | Raised (e : exn).
Arguments Returned {A} a.
Arguments Raised {A} e.

Inductive event : Type :=
  | Executed (q : Query)
  | ReadCsv (path : string)
  | LogError (msg : string)
  | Printed (msg : string).

Definition M (A : Type) : Type := (list event * outcome A)%type.

Definition ret {A : Type} (a : A) : M A := ([], Returned a).

Definition raise {A : Type} (e : exn) : M A := ([], Raised e).

Definition emit (ev : event) : M unit := ([ev], Returned tt).

Definition bind {A B : Type} (m : M A) (f : A -> M B) : M B :=
  match m with
  | (t, Returned a) => let (t', r) := f a in ((t ++ t')%list, r)
  | (t, Raised e) => (t, Raised e)
  end.

Notation "x <- m ;; k" := (bind m (fun x => k))
  (at level 61, m at next level, right associativity).
Notation "m ;;; k" := (bind m (fun _ => k))
  (at level 61, right associativity).

(** [try: body  except Error as e: handler] with [Error] being
    [sqlite3.Error]: any other exception passes through. *)
Definition try_except_Error {A : Type} (body handler : M A) : M A :=
  match body with
  | (t, Raised sqlite3_Error) => let (t', r) := handler in ((t ++ t')%list, r)
  | other => other
  end.

(** [l[i]] on a Python list or tuple. *)
Definition getitem {A : Type} (l : list A) (i : nat) : M A :=
  match nth_error l i with
  | Some a => ret a
  | None => raise IndexError
  end.

(** A dict display [{k1: t[i1], ..., kn: t[in]}], evaluated left to right. *)
Fixpoint build_dict (fields : list (string * nat)) (t : tuple) : M dict :=
  match fields with
  | [] => ret []
  | (k, i) :: rest =>
      x <- getitem t i ;;
      d <- build_dict rest t ;;
      ret ((k, x) :: d)
  end.

Definition trace {A : Type} (m : M A) : list event := fst m.
Definition result {A : Type} (m : M A) : outcome A := snd m.

(** ** The data holders of [src/datastruct.py] and [dbcontext.py] *)

(** Modelled from the spec: [GenomeReference] ([src/datastruct.py] is not
    among the sources).  The spec's GenomeBuild has exactly two members,
    BuildA ("hg19") and BuildB ("hg38"); the program names them
    [GenomeReference.hg19] and [GenomeReference.hg38]. *)
Inductive GenomeReference : Type := hg19 | hg38.

Definition GenomeReference_eqb (a b : GenomeReference) : bool :=
  match a, b with
  | hg19, hg19 | hg38, hg38 => true
  | _, _ => false
  end.

(** Modelled from the spec: [VariantObject] ([src/datastruct.py] is not
    among the sources), the spec's VariantKey: chromosome, position,
    reference allele, alternate allele and genome build, read by the
    program as [_chr], [_pos], [_ref], [_alt] and [_genome].  The four key
    fields are dynamically typed.  A field is kept as the literal the
    formatted statement shows for it (the text '7' and the number 7 are
    both written 7), so two fields are equal when the store compares them
    alike. *)
Record VariantObject : Type := {
  _chr : value;
  _pos : value;
  _ref : value;
  _alt : value;
  _genome : GenomeReference
}.

(** Modelled from the spec: [DbContext] ([dbcontext.py] is not among the
    sources), the scoped connection to the store at [database]; entering
    it either yields a handle whose [_conn] runs statements or fails with
    a store error. *)
Record DbContext : Type := { database : string }.

(** The validated configuration ([json.load] of the file given to
    [__init__]): [config['collection'][..]['database']] and
    [config['collection']['symetrics']['constraints']], a dict from group
    name to CSV path. *)
Record Config : Type := {
  symetrics_database : string;
  symetrics_constraints : list (string * string);
  gnomad_database : string
}.

(** The class attributes of [Symetrics].  [_conn] is declared [None] at
    class level and no method assigns it. *)
Record Symetrics : Type := {
  _db : DbContext;
  _conn : option Database;
  _collection : Config;
  _gnomad_db : DbContext
}.

(** [Symetrics.__init__], after the configuration file is loaded. *)
Definition Symetrics_init (config : Config) : Symetrics :=
  {| _db := {| database := symetrics_database config |};
     _conn := None;
     _collection := config;
     _gnomad_db := {| database := gnomad_database config |} |}.

(** ** The world outside the process *)

(** A constraint file as [pd.read_csv] returns it: the name of its gene
    column ([GENES] or [GENE]) and, per row, the gene and the numeric
    columns [pval], [fdr] and [z]. *)
Record ConstraintRow : Type := {
  gene_id : string;
  pval : R;
  fdr : R;
  z : R
}.

Record ConstraintTable : Type := {
  gene_column : string;
  rows : list ConstraintRow
}.

(** The stores reachable by database path and the CSV files by path. *)
Record World : Type := {
  stores : list (string * Database);
  files : list (string * ConstraintTable)
}.

(** [with ctx as dbhandler]: a store that cannot be opened raises
    [sqlite3.Error]. *)
Definition enter (w : World) (ctx : DbContext) : M Database :=
  match assoc (database ctx) (stores w) with
  | Some db => ret db
  | None => raise sqlite3_Error
  end.

(** [cursor.execute(query)] followed by [cursor.fetchall()]. *)
Definition fetchall (conn : Database) (q : Query) : M (list tuple) :=
  emit (Executed q) ;;;
  match execute conn q with
  | Some found => ret found
  | None => raise sqlite3_Error
  end.

Definition logging_error (msg : string) : M unit := emit (LogError msg).

Definition print (msg : string) : M unit := emit (Printed msg).

(** [f"Connection to {self._db} failed"]; the context is shown by its
    database path. *)
Definition connection_failed (ctx : DbContext) : string :=
  "Connection to " ++ database ctx ++ " failed".

(** ** Variant lookups *)

Definition where_variant (c p r a : string) (variant : VariantObject)
  : list (string * value) :=
  [(c, _chr variant); (p, _pos variant); (r, _ref variant); (a, _alt variant)].

Definition silva_query (variant : VariantObject) : Query :=
  {| q_select := ["#chrom"; "pos"; "ref"; "alt"; "gene"; "#RSCU"; "dRSCU";
                  "#GERP++"; "#CpG?"; "CpG_exon"];
     q_from := "SILVA";
     q_where := where_variant "#chrom" "pos" "ref" "alt" variant |}.

Definition get_silva_score (w : World) (self : Symetrics)
    (variant : VariantObject) : M (option dict) :=
  try_except_Error
    (dbhandler <- enter w (_db self) ;;
     silva_rows <- fetchall dbhandler (silva_query variant) ;;
     silva_scores <- getitem silva_rows 0 ;;
     silva_scores <- build_dict
       [("CHR", 0); ("POS", 1); ("REF", 2); ("ALT", 3); ("GENE", 4);
        ("RSCU", 5); ("dRSCU", 6); ("GERP", 7); ("CPG", 8); ("CPGX", 9)]%nat
       silva_scores ;;
     ret (Some silva_scores))
    (logging_error (connection_failed (_db self)) ;;; ret None).

Definition surf_query (variant : VariantObject) : Query :=
  {| q_select := ["CHR"; "POS"; "REF"; "ALT"; "GENE"; "SURF"];
     q_from := "SURF";
     q_where := where_variant "CHR" "POS" "REF" "ALT" variant |}.

Definition get_surf_score (w : World) (self : Symetrics)
    (variant : VariantObject) : M (option dict) :=
  try_except_Error
    (dbhandler <- enter w (_db self) ;;
     surf_rows <- fetchall dbhandler (surf_query variant) ;;
     surf_scores <- getitem surf_rows 0 ;;
     surf_scores <- build_dict
       [("CHR", 0); ("POS", 1); ("REF", 2); ("ALT", 3); ("SURF", 4)]%nat
       surf_scores ;;
     ret (Some surf_scores))
    (logging_error (connection_failed (_db self)) ;;; ret None).

(** Both branches filter on [pos_GRCh38]; they differ in the position
    column selected. *)
Definition synvep_query (variant : VariantObject) : Query :=
  match _genome variant with
  | hg38 =>
      {| q_select := ["chr"; "pos_GRCh38"; "ref"; "alt"; "HGNC_gene_symbol";
                      "synVep"];
         q_from := "SYNVEP";
         q_where := where_variant "chr" "pos_GRCh38" "ref" "alt" variant |}
  | hg19 =>
      {| q_select := ["chr"; "pos"; "ref"; "alt"; "HGNC_gene_symbol"; "synVep"];
         q_from := "SYNVEP";
         q_where := where_variant "chr" "pos_GRCh38" "ref" "alt" variant |}
  end.

Definition get_synvep_score (w : World) (self : Symetrics)
    (variant : VariantObject) : M (option dict) :=
  try_except_Error
    (dbhandler <- enter w (_db self) ;;
     synvep_rows <- fetchall dbhandler (synvep_query variant) ;;
     synvep_scores <- getitem synvep_rows 0 ;;
     synvep_scores <- build_dict
       [("CHR", 0); ("POS", 1); ("REF", 2); ("ALT", 3); ("GENE", 4);
        ("SYNVEP", 5)]%nat
       synvep_scores ;;
     ret (Some synvep_scores))
    (logging_error (connection_failed (_db self)) ;;; ret None).

Definition gnomad_query (variant : VariantObject) : Query :=
  {| q_select := ["chr"; "pos"; "ref"; "alt"; "AC"; "AN"; "AF"];
     q_from := "gnomad_db";
     q_where := where_variant "chr" "pos" "ref" "alt" variant |}.

Definition get_gnomad_data (w : World) (self : Symetrics)
    (variant : VariantObject) : M (option dict) :=
  match _genome variant with
  | hg19 =>
      print "Not possible in the current version please use the hg38 version of the variant" ;;;
      ret None
  | hg38 =>
      try_except_Error
        (dbhandler <- enter w (_gnomad_db self) ;;
         gnomad_rows <- fetchall dbhandler (gnomad_query variant) ;;
         if (0 <? List.length gnomad_rows)%nat then
           gnomad_data <- getitem gnomad_rows 0 ;;
           gnomad_data <- build_dict
             [("CHR", 0); ("POS", 1); ("REF", 2); ("ALT", 3); ("AC", 4);
              ("AN", 5); ("AF", 6)]%nat
             gnomad_data ;;
           ret (Some gnomad_data)
         else
           logging_error "Variant not found" ;;; ret None)
        (logging_error "Connection to Gnomad failed" ;;; ret None)
  end.

(** ** Liftover *)

Definition liftover_query (variant : VariantObject) : Query :=
  match _genome variant with
  | hg38 =>
      {| q_select := ["chr"; "pos"; "ref"; "alt"; "HGNC_gene_symbol"; "synVep"];
         q_from := "SYNVEP";
         q_where := where_variant "chr" "pos_GRCh38" "ref" "alt" variant |}
  | hg19 =>
      {| q_select := ["chr"; "pos_GRCh38"; "ref"; "alt"; "HGNC_gene_symbol";
                      "synVep"];
         q_from := "SYNVEP";
         q_where := where_variant "chr" "pos" "ref" "alt" variant |}
  end.

Definition new_reference (variant : VariantObject) : GenomeReference :=
  match _genome variant with
  | hg38 => hg19
  | hg19 => hg38
  end.

Definition liftover (w : World) (self : Symetrics)
    (variant : VariantObject) : M (option VariantObject) :=
  try_except_Error
    (dbhandler <- enter w (_db self) ;;
     synvep_rows <- fetchall dbhandler (liftover_query variant) ;;
     variant_info <- getitem synvep_rows 0 ;;
     c <- getitem variant_info 0 ;;
     p <- getitem variant_info 1 ;;
     r <- getitem variant_info 2 ;;
     a <- getitem variant_info 3 ;;
     ret (Some {| _chr := c; _pos := p; _ref := r; _alt := a;
                  _genome := new_reference variant |}))
    (logging_error (connection_failed (_db self)) ;;; ret None).

(** ** Splice-effect lookup *)

(** [s.split(sep)] for a one-character separator. *)
Fixpoint split (sep : ascii) (s : string) : list string :=
  match s with
  | EmptyString => [EmptyString]
  | String c rest =>
      if Ascii.eqb c sep then EmptyString :: split sep rest
      else match split sep rest with
           | [] => [String c EmptyString]
           | h :: t => String c h :: t
           end
  end.

Fixpoint mapM {A B : Type} (f : A -> M B) (l : list A) : M (list B) :=
  match l with
  | [] => ret []
  | a :: rest =>
      b <- f a ;;
      bs <- mapM f rest ;;
      ret (b :: bs)
  end.

(** [row[name]] in a frame whose columns are [header]. *)
Fixpoint lookup_column {A : Type} (name : string) (header : list string)
    (cells : list A) : option A :=
  match header, cells with
  | h :: hs, c :: cs =>
      if String.eqb name h then Some c else lookup_column name hs cs
  | _, _ => None
  end.

Definition column {A : Type} (name : string) (header : list string)
    (cells : list A) : M A :=
  match lookup_column name header cells with
  | Some c => ret c
  | None => raise KeyError
  end.

(** Width of [pd.DataFrame(rows)]: no column at all for an empty list. *)
Definition frame_width (data : list tuple) : nat :=
  match data with
  | [] => 0
  | t :: _ => List.length t
  end.

(** [df.columns = names] refuses a list of another length. *)
Definition set_columns (data : list tuple) (names : list string)
  : M (list tuple) :=
  if Nat.eqb (frame_width data) (List.length names) then ret data
  else raise ValueError.

Definition frame_empty (data : list tuple) : bool :=
  match data with
  | [] => true
  | _ :: _ => Nat.eqb (frame_width data) 0
  end.

Definition pad (k : nat) (parts : list string) : list (option string) :=
  (map Some parts ++ repeat None (k - List.length parts))%list.

(** [column.str.split('|', expand=True)]: one column per part, as many as
    the longest row has, shorter rows filled with [None].  The [.str]
    accessor is refused on cells that are not text. *)
Definition str_split_expand (cells : list value)
  : M (list (list (option string))) :=
  parts <- mapM (fun v => match v with
                          | VText s => ret (split "|" s)
                          | _ => raise AttributeError
                          end) cells ;;
  ret (map (pad (list_max (map (@List.length string) parts))) parts).

(** [df[names] = frame] needs as many columns as names. *)
Definition assign_columns (names : list string)
    (frame : list (list (option string))) : M (list (list (option string))) :=
  if forallb (fun r => Nat.eqb (List.length r) (List.length names)) frame
  then ret frame else raise ValueError.

Definition max_str (m x : string) : string :=
  if String.ltb m x then x else m.

(** Python's [max(a, b, c, d)] on cells that are strings or [None]:
    comparing with [None] is a [TypeError]. *)
Definition py_max (a b c d : option string) : M string :=
  match a, b, c, d with
  | Some a, Some b, Some c, Some d =>
      ret (max_str (max_str (max_str a b) c) d)
  | _, _, _, _ => raise TypeError
  end.

Definition vcf_header : list string :=
  split "|" "ALLELE|SYMBOL|DS_AG|DS_AL|DS_DG|DS_DL|DP_AG|DP_AL|DP_DG|DP_DL".

Definition spliceai_columns : list string :=
  ["CHR"; "POS"; "REF"; "ALT"; "INFO"].

(** One row of the frame after the [MAX_DS] column is added and the five
    output columns are kept, as [to_dict(orient='records')] shows it. *)
Definition spliceai_record (row : tuple * list (option string)) : M dict :=
  let (cells, parts) := row in
  ds_ag <- column "DS_AG" vcf_header parts ;;
  ds_al <- column "DS_AL" vcf_header parts ;;
  ds_dg <- column "DS_DG" vcf_header parts ;;
  ds_dl <- column "DS_DL" vcf_header parts ;;
  max_ds <- py_max ds_ag ds_al ds_dg ds_dl ;;
  c <- column "CHR" spliceai_columns cells ;;
  p <- column "POS" spliceai_columns cells ;;
  r <- column "REF" spliceai_columns cells ;;
  a <- column "ALT" spliceai_columns cells ;;
  ret [("CHR", c); ("POS", p); ("REF", r); ("ALT", a);
       ("MAX_DS", VText max_ds)].

(** What [get_spliceai_score] can return: [None], the frame itself (when
    it is empty) or the list of records. *)
Inductive spliceai_result : Type :=
  | SpliceNone
  | SpliceFrame (data : list tuple)
  | SpliceRecords (records : list dict).

Definition spliceai_query (variant : VariantObject) : Query :=
  {| q_select := ["chr"; "pos"; "ref"; "alt"; "INFO"];
     q_from := "SPLICEAI";
     q_where := where_variant "chr" "pos" "ref" "alt" variant |}.

(** [self._conn.cursor()]: an attribute access on [None] when no
    connection is stored on the object. *)
Definition cursor (conn : option Database) : M Database :=
  match conn with
  | Some c => ret c
  | None => raise AttributeError
  end.

Definition get_spliceai_score (w : World) (self : Symetrics)
    (variant : VariantObject) : M spliceai_result :=
  try_except_Error
    (dbhandler <- enter w (_db self) ;;
     spliceai_cursor <- cursor (_conn self) ;;
     spliceai_rows <- fetchall spliceai_cursor (spliceai_query variant) ;;
     spliceai_score <- set_columns spliceai_rows spliceai_columns ;;
     if negb (frame_empty spliceai_score) then
       info <- mapM (column "INFO" spliceai_columns) spliceai_score ;;
       expanded <- str_split_expand info ;;
       expanded <- assign_columns vcf_header expanded ;;
       records <- mapM spliceai_record (combine spliceai_score expanded) ;;
       ret (SpliceRecords records)
     else ret (SpliceFrame spliceai_score))
    (logging_error (connection_failed (_db self)) ;;; ret SpliceNone).

(** ** Gene-level scores *)

(** [sklearn.preprocessing.StandardScaler] on one column, as documented:
    [(x - u) / s] with [u] the mean and [s] the population standard
    deviation of the fitted samples, a zero [s] being replaced by one.
    The arithmetic is that of the real numbers.  Fitting no sample at all
    is a [ValueError]. *)
Definition total (xs : list R) : R := fold_right Rplus 0%R xs.

Definition mean (xs : list R) : R := (total xs / INR (List.length xs))%R.

Definition variance (xs : list R) : R :=
  mean (map (fun x => ((x - mean xs) * (x - mean xs))%R) xs).

Definition scale (xs : list R) : R :=
  let s := sqrt (variance xs) in
  if Req_dec_T s 0%R then 1%R else s.

Definition transform (fitted : list R) (x : R) : R :=
  ((x - mean fitted) / scale fitted)%R.

Definition fit_transform (xs : list R) : M (list R) :=
  match xs with
  | [] => raise ValueError
  | _ :: _ => ret (map (transform xs) xs)
  end.

(** One dict of [scores.to_dict(orient='records')]. *)
Record ConstraintRecord : Type := {
  GENE : string;
  PVAL : R;
  FDR : R;
  SYMETRIC_SCORE : R;
  NORM_SYMETRIC_SCORE : R;
  GROUP : string
}.

Definition read_csv (w : World) (path : string) : M ConstraintTable :=
  emit (ReadCsv path) ;;;
  match assoc path (files w) with
  | Some t => ret t
  | None => raise FileNotFoundError
  end.

(** [d[k]] on a dict. *)
Definition subscript {A : Type} (d : list (string * A)) (k : string) : M A :=
  match assoc k d with
  | Some v => ret v
  | None => raise KeyError
  end.

(** [scores.GENES] or [scores.GENE]: the frame must have that column. *)
Definition gene_attribute (name : string) (scores : ConstraintTable)
  : M unit :=
  if String.eqb (gene_column scores) name then ret tt
  else raise AttributeError.

Definition to_record (group : string) (r : ConstraintRow * R)
  : ConstraintRecord :=
  {| GENE := gene_id (fst r);
     PVAL := pval (fst r);
     FDR := fdr (fst r);
     SYMETRIC_SCORE := z (fst r);
     NORM_SYMETRIC_SCORE := snd r;
     GROUP := group |}.

(** The body shared by the three [case] branches, which differ only in
    the name of the gene column they read. *)
Definition case_body (w : World) (synvep_constraints : list (string * string))
    (column_name group gene : string) : M (option (list ConstraintRecord)) :=
  path <- subscript synvep_constraints group ;;
  scores <- read_csv w path ;;
  scaled_scores <- fit_transform (map z (rows scores)) ;;
  let scores' := combine (rows scores) scaled_scores in
  gene_attribute column_name scores ;;;
  let scores'' :=
    filter (fun r => String.eqb (gene_id (fst r)) gene) scores' in
  ret (Some (map (to_record group) scores'')).

Section PropScore.

(** The member names of the enumeration [MetricsGroup], that is
    [MetricsGroup.__members__] ([src/datastruct.py] is not among the
    sources). *)
Variable MetricsGroup : list string.

(** [group in MetricsGroup.__members__] *)
Definition is_member (group : string) : bool :=
  existsb (String.eqb group) MetricsGroup.

(** [MetricsGroup.X.name], the value a [case] pattern compares with: the
    attribute exists only when [X] is a member. *)
Definition member_name (name : string) : M string :=
  if is_member name then ret name else raise AttributeError.

Definition get_prop_score (w : World) (self : Symetrics)
    (group gene : string) : M (option (list ConstraintRecord)) :=
  let synvep_constraints := symetrics_constraints (_collection self) in
  if is_member group then
    synvep <- member_name "SYNVEP" ;;
    if String.eqb group synvep then
      case_body w synvep_constraints "GENES" group gene
    else
      surf <- member_name "SURF" ;;
      if String.eqb group surf then
        case_body w synvep_constraints "GENES" group gene
      else
        case_body w synvep_constraints "GENE" group gene
  else
    logging_error ("Group: " ++ group ++ " is not valid") ;;; ret None.

End PropScore.

(** The groups listed in the docstring of [get_prop_score]. *)
Definition documented_groups : list string :=
  ["SYNVEP"; "GERP"; "CpG"; "CpG_exon"; "RSCU"; "dRSCU"; "SpliceAI"; "SURF"].

(** ** Gene constraints from gnomAD *)

(** A frame as [pd.read_csv(path, sep="\t")] returns it: its column names
    and its rows of cells, a missing cell being [None]. *)
Record Frame : Type := {
  frame_columns : list string;
  frame_rows : list (list (option value))
}.

Definition read_tsv (tsv : list (string * Frame)) (path : string) : M Frame :=
  emit (ReadCsv path) ;;;
  match assoc path tsv with
  | Some df => ret df
  | None => raise FileNotFoundError
  end.

(** The cell of a row under a column; a row that stops short of the
    column has a missing cell there. *)
Definition frame_cell (name : string) (columns : list string)
    (r : list (option value)) : option value :=
  match lookup_column name columns r with
  | Some c => c
  | None => None
  end.

(** [df[[n1, ..., nk]]]: the named columns in that order; a name that is
    no column of the frame is a [KeyError]. *)
Definition select_columns (names : list string) (df : Frame) : M Frame :=
  if forallb (fun n => existsb (String.eqb n) (frame_columns df)) names then
    ret {| frame_columns := names;
           frame_rows :=
             map (fun r => map (fun n => frame_cell n (frame_columns df) r)
                             names)
               (frame_rows df) |}
  else raise KeyError.

(** One element of [column == gene]: true for a text cell equal to
    [gene]. *)
Definition cell_is (gene : string) (c : option value) : bool :=
  match c with
  | Some (VText s) => String.eqb s gene
  | _ => false
  end.

(** [df[df.gene == gene]] *)
Definition where_gene (gene : string) (df : Frame) : Frame :=
  {| frame_columns := frame_columns df;
     frame_rows :=
       filter (fun r => cell_is gene (frame_cell "gene" (frame_columns df) r))
         (frame_rows df) |}.

(** [df.to_dict(orient='records')] *)
Definition to_dict_records (df : Frame) : list (list (string * option value)) :=
  map (combine (frame_columns df)) (frame_rows df).

Definition constraint_columns : list string :=
  ["gene"; "transcript"; "syn_z"; "mis_z"; "lof_z"; "pLI"].

(** [Symetrics.get_gnomad_constraints].  The one thing the method reads
    from the object is the path
    [self._collection['collection']['gnomad']['constraints']], given here
    as [gnomad_constraints]; [tsv] holds the tab-separated files by
    path. *)
Definition get_gnomad_constraints (tsv : list (string * Frame))
    (gnomad_constraints : string) (gene : string)
  : M (list (list (string * option value))) :=
  gnomad_data <- read_tsv tsv gnomad_constraints ;;
  gnomad_data <- select_columns constraint_columns gnomad_data ;;
  let gnomad_data := where_gene gene gnomad_data in
  ret (to_dict_records gnomad_data).

(** * Vocabulary of the properties and sample data *)

(** A row satisfies [WHERE c = .. AND p = .. AND r = .. AND a = ..] exactly
    when its four key cells are those of the variant. *)
Definition keyed_by (c p r a : string) (variant : VariantObject) (row : Row)
  : Prop :=
  assoc c row = Some (_chr variant) /\
  assoc p row = Some (_pos variant) /\
  assoc r row = Some (_ref variant) /\
  assoc a row = Some (_alt variant).

(** The row carries every column of [cols]. *)
Definition has_columns (cols : list string) (row : Row) : Prop :=
  forall c, In c cols -> assoc c row <> None.

Definition sample_config : Config :=
  {| symetrics_database := "symetrics.db";
     symetrics_constraints :=
       [("SYNVEP", "synvep.csv"); ("SURF", "surf.csv"); ("GERP", "gerp.csv")];
     gnomad_database := "gnomad.db" |}.

Definition api : Symetrics := Symetrics_init sample_config.

(** The variant of the docstrings: chr 7, position 91763673, C to A. *)
Definition variant_at (pos : Z) (genome : GenomeReference) : VariantObject :=
  {| _chr := VInt 7; _pos := VInt pos; _ref := VText "C"; _alt := VText "A";
     _genome := genome |}.

Definition variant_hg19 : VariantObject := variant_at 91763673 hg19.
Definition variant_hg38 : VariantObject := variant_at 91763673 hg38.

Definition world_of (db : Database) : World :=
  {| stores := [("symetrics.db", db)]; files := [] |}.

(** A store whose tables exist and hold no row. *)
Definition empty_store : Database :=
  [("SILVA", []); ("SURF", []); ("SYNVEP", []); ("SPLICEAI", [])].

Definition opens (w : World) (ctx : DbContext) (db : Database) : Prop :=
  assoc (database ctx) (stores w) = Some db.

Ltac run_lookup Hopen Hexec :=
  unfold try_except_Error, enter, fetchall;
  rewrite Hopen; cbn; rewrite Hexec; cbn.

Definition synvep_row (pos pos38 : Z) : Row :=
  [("chr", VInt 7); ("pos", VInt pos); ("pos_GRCh38", VInt pos38);
   ("ref", VText "C"); ("alt", VText "A");
   ("HGNC_gene_symbol", VText "AKAP9"); ("synVep", VReal (1 # 2))].

(** A bridge row for the variant of the docstrings: 91763673 in the hg19
    column, 92134359 in the hg38 column. *)
Definition docstring_row : Row := synvep_row 91763673 92134359.

(** A row of another variant, whose hg38 column holds the number
    91763673. *)
Definition neighbour_row : Row := synvep_row 91392987 91763673.

Definition bridge_only : Database := [("SYNVEP", [docstring_row])].

Definition bridge_both : Database :=
  [("SYNVEP", [docstring_row; neighbour_row])].

Definition spliceai_row : Row :=
  [("chr", VInt 7); ("pos", VInt 91763673); ("ref", VText "C");
   ("alt", VText "A");
   ("INFO", VText "A|AKAP9|0.2|0.9|0.1|0.05|-12|3|40|-7")].

(** A store whose SPLICEAI table holds exactly one row, the one matching
    [variant_hg38]. *)
Definition splice_store : Database := [("SPLICEAI", [spliceai_row])].

Definition surf_row : Row :=
  [("CHR", VInt 7); ("POS", VInt 91763673); ("REF", VText "C");
   ("ALT", VText "A"); ("GENE", VText "AKAP9"); ("SURF", VReal (3 # 10))].

Definition surf_store : Database := [("SURF", [surf_row])].

Definition is_query (ev : event) : bool :=
  match ev with
  | Executed _ => true
  | _ => false
  end.

Definition runs_query {A : Type} (m : M A) : bool :=
  existsb is_query (trace m).

(** The same variant under another build tag. *)
Definition retag (variant : VariantObject) (genome : GenomeReference)
  : VariantObject :=
  {| _chr := _chr variant; _pos := _pos variant; _ref := _ref variant;
     _alt := _alt variant; _genome := genome |}.

(** A lookup on a table indexed in [native] only rejects variants of the
    other build: no statement is run for them and nothing is returned. *)
Definition rejects_other_build
    (lookup : World -> Symetrics -> VariantObject -> M (option dict))
    (native : GenomeReference) : Prop :=
  forall w self variant,
    _genome variant <> native ->
    runs_query (lookup w self variant) = false /\
    result (lookup w self variant) = Returned None.

Definition silva_row : Row :=
  [("#chrom", VInt 7); ("pos", VInt 91763673); ("ref", VText "C");
   ("alt", VText "A"); ("gene", VText "AKAP9"); ("#RSCU", VReal (7 # 10));
   ("dRSCU", VReal (1 # 10)); ("#GERP++", VReal (4 # 1)); ("#CpG?", VInt 0);
   ("CpG_exon", VInt 1)].

Definition silva_store : Database := [("SILVA", [silva_row])].

Definition unsupported_notice : string :=
  "Not possible in the current version please use the hg38 version of the variant".

Definition gnomad_world : World :=
  {| stores := [("gnomad.db", [("gnomad_db", [])])]; files := [] |}.

Definition position_column (genome : GenomeReference) : string :=
  match genome with
  | hg19 => "pos"
  | hg38 => "pos_GRCh38"
  end.

Definition other_build (genome : GenomeReference) : GenomeReference :=
  match genome with
  | hg19 => hg38
  | hg38 => hg19
  end.

(** The columns of SYNVEP that the program names. *)
Definition bridge_columns : list string :=
  ["chr"; "pos"; "pos_GRCh38"; "ref"; "alt"; "HGNC_gene_symbol"; "synVep"].

Definition bridge_table (table : Table) : Prop :=
  forall row, In row table -> has_columns bridge_columns row.

(** The row carries the variant's chromosome and alleles, and its
    position in the column of the variant's own build. *)
Definition in_bridge (variant : VariantObject) (row : Row) : Prop :=
  keyed_by "chr" (position_column (_genome variant)) "ref" "alt" variant row.

(** The bridge table maps the variant uniquely: the rows of its site that
    share the opposite-build position of a row matching the variant also
    share that row's position in the variant's own build. *)
Definition unique_mapping (table : Table) (variant : VariantObject) : Prop :=
  forall r r',
    In r table -> In r' table ->
    in_bridge variant r ->
    assoc "chr" r' = assoc "chr" r ->
    assoc "ref" r' = assoc "ref" r ->
    assoc "alt" r' = assoc "alt" r ->
    assoc (position_column (other_build (_genome variant))) r'
    = assoc (position_column (other_build (_genome variant))) r ->
    assoc (position_column (_genome variant)) r'
    = assoc (position_column (_genome variant)) r.

(** Two hg19 positions carried to one hg38 position: the way back stops
    at the first of them. *)
Definition ambiguous_bridge : Database :=
  [("SYNVEP", [synvep_row 91763673 92134359; synvep_row 91763999 92134359])].

(** The enumeration has the two members the dispatch names. *)
Definition names_its_cases (MetricsGroup : list string) : Prop :=
  In "SYNVEP" MetricsGroup /\ In "SURF" MetricsGroup.

(** The gene column each branch of the dispatch reads. *)
Definition gene_column_of (group : string) : string :=
  if String.eqb group "SYNVEP" || String.eqb group "SURF" then "GENES"
  else "GENE".

(** The constraint file of [group] is configured, present, has the gene
    column its branch reads and holds at least one row. *)
Definition loads (w : World) (self : Symetrics) (group : string)
    (table : ConstraintTable) : Prop :=
  (exists path,
     assoc group (symetrics_constraints (_collection self)) = Some path /\
     assoc path (files w) = Some table) /\
  gene_column table = gene_column_of group /\
  rows table <> [].

(** The record of one row of the table, scaled against [fitted]. *)
Definition scaled_record (group : string) (fitted : list R)
    (r : ConstraintRow) : ConstraintRecord :=
  {| GENE := gene_id r;
     PVAL := pval r;
     FDR := fdr r;
     SYMETRIC_SCORE := z r;
     NORM_SYMETRIC_SCORE := transform fitted (z r);
     GROUP := group |}.

(** A table of five genes with raw statistics 1 to 5. *)
Definition five_genes : ConstraintTable :=
  {| gene_column := "GENES";
     rows :=
       [ {| gene_id := "A1BG"; pval := 0.5; fdr := 0.6; z := 1 |};
         {| gene_id := "A2M"; pval := 0.4; fdr := 0.6; z := 2 |};
         {| gene_id := "DNMT1"; pval := 0.3; fdr := 0.6; z := 3 |};
         {| gene_id := "AKAP9"; pval := 0.2; fdr := 0.6; z := 4 |};
         {| gene_id := "TP53"; pval := 0.1; fdr := 0.6; z := 5 |} ]%R |}.

Definition constraint_world : World :=
  {| stores := []; files := [("synvep.csv", five_genes)] |}.

(** The three lookups that answer with a dict built from the first tuple
    fetched. *)
Inductive table_lookup : Type := Silva | Surf | Synvep.

Definition lookup_of (l : table_lookup)
  : World -> Symetrics -> VariantObject -> M (option dict) :=
  match l with
  | Silva => get_silva_score
  | Surf => get_surf_score
  | Synvep => get_synvep_score
  end.

Definition query_of (l : table_lookup) (variant : VariantObject) : Query :=
  match l with
  | Silva => silva_query variant
  | Surf => surf_query variant
  | Synvep => synvep_query variant
  end.

Definition keys_of (l : table_lookup) : list string :=
  match l with
  | Silva => ["CHR"; "POS"; "REF"; "ALT"; "GENE"; "RSCU"; "dRSCU"; "GERP";
              "CPG"; "CPGX"]
  | Surf => ["CHR"; "POS"; "REF"; "ALT"; "SURF"]
  | Synvep => ["CHR"; "POS"; "REF"; "ALT"; "GENE"; "SYNVEP"]
  end.

(** A store that opens and has no table at all. *)
Definition bare_world : World := world_of [].


(** The columns of SILVA and of gnomad_db that the program names. *)
Definition silva_columns : list string :=
  ["#chrom"; "pos"; "ref"; "alt"; "gene"; "#RSCU"; "dRSCU"; "#GERP++";
   "#CpG?"; "CpG_exon"].

Definition gnomad_columns : list string :=
  ["chr"; "pos"; "ref"; "alt"; "AC"; "AN"; "AF"].

(** Every row of the table carries the columns [cols]. *)
Definition table_with (cols : list string) (table : Table) : Prop :=
  forall row, In row table -> has_columns cols row.

Definition gnomad_row (ac : Z) : Row :=
  [("chr", VInt 7); ("pos", VInt 91763673); ("ref", VText "C");
   ("alt", VText "A"); ("AC", VInt ac); ("AN", VInt 152000);
   ("AF", VReal (1 # 76000))].

(** A population-frequency store with two rows for the same variant. *)
Definition gnomad_twice : World :=
  {| stores := [("gnomad.db", [("gnomad_db", [gnomad_row 2; gnomad_row 5])])];
     files := [] |}.

(** The frame holds every column that [get_gnomad_constraints] keeps. *)
Definition constraint_frame (df : Frame) : Prop :=
  forall name, In name constraint_columns -> In name (frame_columns df).

(** The record [to_dict] shows for one row of the frame. *)
Definition constraint_record (df : Frame) (r : list (option value))
  : list (string * option value) :=
  map (fun n => (n, frame_cell n (frame_columns df) r)) constraint_columns.

(** A constraint file with more columns than the method keeps, in another
    order, two transcripts of one gene and a row with a missing score. *)
Definition gnomad_frame : Frame :=
  {| frame_columns :=
       ["transcript"; "gene"; "obs_syn"; "syn_z"; "mis_z"; "lof_z"; "pLI"];
     frame_rows :=
       [ [Some (VText "ENST1"); Some (VText "A1BG"); Some (VInt 120);
          Some (VReal (1 # 2)); Some (VReal (1 # 4)); Some (VReal (3 # 4));
          Some (VReal (1 # 100))];
         [Some (VText "ENST2"); Some (VText "DNMT1"); Some (VInt 300);
          Some (VReal (3 # 2)); Some (VReal (5 # 1)); Some (VReal (7 # 1));
          Some (VReal (1 # 1))];
         [Some (VText "ENST3"); Some (VText "A1BG"); Some (VInt 80);
          Some (VReal (1 # 3)); None; Some (VReal (2 # 3)); None] ] |}.

Definition gnomad_files : list (string * Frame) :=
  [("gnomad.tsv", gnomad_frame);
   ("genes_only.tsv",
    {| frame_columns := ["gene"; "transcript"]; frame_rows := [] |})].




(** * Properties *)

(** ** Cells and statements *)

Lemma value_eqb_eq (a b : value) : value_eqb a b = true <-> a = b.
Proof.
  destruct a as [x|x|x], b as [y|y|y]; simpl; split; intro H;
    try discriminate; try (inversion H; subst).
  - apply Z.eqb_eq in H. now subst.
  - apply Z.eqb_refl.
  - destruct x as [xn xd], y as [yn yd]; simpl in H.
    apply andb_true_iff in H as [Hn Hd].
    apply Z.eqb_eq in Hn. apply Pos.eqb_eq in Hd. now subst.
  - now rewrite Z.eqb_refl, Pos.eqb_refl.
  - apply String.eqb_eq in H. now subst.
  - apply String.eqb_refl.
Qed.

Lemma value_eqb_refl (a : value) : value_eqb a a = true.
Proof. now apply value_eqb_eq. Qed.

Lemma eval_where_variant (c p r a : string) (variant : VariantObject)
    (row : Row) :
  eval_where (where_variant c p r a variant) row = Some true
  <-> keyed_by c p r a variant row.
Proof.
  unfold where_variant, keyed_by; simpl.
  destruct (assoc c row) as [x1|], (assoc p row) as [x2|],
    (assoc r row) as [x3|], (assoc a row) as [x4|];
    try (split; [discriminate | intros (H1 & H2 & H3 & H4); discriminate]).
  split.
  - intro H. injection H as H.
    repeat (apply andb_true_iff in H; destruct H as [?E H]).
    apply value_eqb_eq in E, E0, E1, E2. now subst.
  - intros (H1 & H2 & H3 & H4).
    injection H1 as ->. injection H2 as ->. injection H3 as ->.
    injection H4 as ->. now rewrite !value_eqb_refl.
Qed.

(** What a successful scan returns: the projections of the rows that
    satisfy the condition, in table order. *)
Lemma scan_nil (q : Query) (table : Table) (found : list tuple) :
  scan q table = Some found ->
  (forall row, In row table -> eval_where (q_where q) row <> Some true) ->
  found = [].
Proof.
  revert found. induction table as [|r rest IH]; simpl; intros found H Hno.
  - now injection H as <-.
  - destruct (eval_where (q_where q) r) as [b|] eqn:Eb; [|discriminate].
    destruct (project (q_select q) r) as [t|]; [|discriminate].
    destruct (scan q rest) as [ts|]; [|discriminate].
    injection H as <-.
    destruct b.
    + exfalso. apply (Hno r); auto.
    + apply IH; auto.
Qed.

Lemma scan_first (q : Query) (table : Table) (t : tuple) (ts : list tuple) :
  scan q table = Some (t :: ts) ->
  exists before row after,
    table = (before ++ row :: after)%list /\
    (forall r, In r before -> eval_where (q_where q) r = Some false) /\
    eval_where (q_where q) row = Some true /\
    project (q_select q) row = Some t.
Proof.
  induction table as [|r rest IH]; simpl; intro H; [discriminate|].
  destruct (eval_where (q_where q) r) as [b|] eqn:Eb; [|discriminate].
  destruct (project (q_select q) r) as [t0|] eqn:Ep; [|discriminate].
  destruct (scan q rest) as [ts0|]; [|discriminate].
  destruct b.
  - injection H as -> ->. exists [], r, rest. repeat split; auto.
    intros r0 [].
  - injection H as ->.
    destruct (IH eq_refl) as (before & row & after & -> & Hb & Hr & Hp).
    exists (r :: before), row, after. repeat split; auto.
    intros r0 [<-|Hin]; auto.
Qed.

(** A scan of a table whose rows all carry the named columns succeeds. *)
Lemma project_total (cols : list string) (row : Row) :
  has_columns cols row -> exists t, project cols row = Some t.
Proof.
  induction cols as [|c rest IH]; intro H; simpl.
  - now exists [].
  - destruct (assoc c row) as [x|] eqn:E.
    + destruct IH as [t ->]. { intros c' Hc'. apply H. now right. }
      now exists (x :: t).
    + exfalso. apply (H c); [now left | exact E].
Qed.

Lemma eval_where_total (cond : list (string * value)) (row : Row) :
  has_columns (map fst cond) row -> exists b, eval_where cond row = Some b.
Proof.
  induction cond as [|[c v] rest IH]; intro H; simpl.
  - now exists true.
  - destruct (assoc c row) as [x|] eqn:E.
    + destruct IH as [b ->]. { intros c' Hc'. apply H. now right. }
      now exists (value_eqb x v && b).
    + exfalso. apply (H c); [now left | exact E].
Qed.

Lemma scan_total (q : Query) (table : Table) :
  (forall row, In row table ->
     has_columns (q_select q) row /\ has_columns (map fst (q_where q)) row) ->
  exists found, scan q table = Some found.
Proof.
  induction table as [|r rest IH]; intro H; simpl.
  - now exists [].
  - destruct (H r (or_introl eq_refl)) as [Hs Hw].
    destruct (eval_where_total _ _ Hw) as [b ->].
    destruct (project_total _ _ Hs) as [t ->].
    destruct IH as [ts ->]. { intros row Hin. apply H. now right. }
    now exists (if b then t :: ts else ts).
Qed.

(** ** Lookups that match no row *)

(** C1 (code defect).  When the store opens and the statement matches no
    row, [get_silva_score], [get_surf_score], [get_synvep_score] and
    [liftover] do not return an empty outcome: the subscript [rows[0]]
    raises [IndexError], which [except Error] does not catch, so it
    reaches the caller. *)
Theorem zero_rows_raise_IndexError (w : World) (self : Symetrics)
    (variant : VariantObject) (db : Database) :
  opens w (_db self) db ->
  (execute db (silva_query variant) = Some [] ->
   get_silva_score w self variant
   = ([Executed (silva_query variant)], Raised IndexError)) /\
  (execute db (surf_query variant) = Some [] ->
   get_surf_score w self variant
   = ([Executed (surf_query variant)], Raised IndexError)) /\
  (execute db (synvep_query variant) = Some [] ->
   get_synvep_score w self variant
   = ([Executed (synvep_query variant)], Raised IndexError)) /\
  (execute db (liftover_query variant) = Some [] ->
   liftover w self variant
   = ([Executed (liftover_query variant)], Raised IndexError)).
Proof.
  unfold opens. intro Hopen. repeat split; intro Hexec.
  - unfold get_silva_score. now run_lookup Hopen Hexec.
  - unfold get_surf_score. now run_lookup Hopen Hexec.
  - unfold get_synvep_score. now run_lookup Hopen Hexec.
  - unfold liftover. now run_lookup Hopen Hexec.
Qed.

Lemma zero_rows_raise_IndexError_witness :
  opens (world_of empty_store) (_db api) empty_store /\
  result (get_silva_score (world_of empty_store) api variant_hg19)
  = Raised IndexError /\
  result (get_surf_score (world_of empty_store) api variant_hg38)
  = Raised IndexError /\
  result (get_synvep_score (world_of empty_store) api variant_hg38)
  = Raised IndexError /\
  result (liftover (world_of empty_store) api variant_hg19)
  = Raised IndexError.
Proof.
  pose proof (zero_rows_raise_IndexError (world_of empty_store) api
                variant_hg19 empty_store eq_refl) as (H1 & _ & _ & H4).
  pose proof (zero_rows_raise_IndexError (world_of empty_store) api
                variant_hg38 empty_store eq_refl) as (_ & H2 & H3 & _).
  split; [reflexivity|].
  split; [now rewrite (H1 eq_refl)|].
  split; [now rewrite (H2 eq_refl)|].
  split; [now rewrite (H3 eq_refl)|].
  now rewrite (H4 eq_refl).
Defined.

(** The population-frequency lookup does guard the subscript: with no
    matching row it logs and returns [None]. *)
Lemma gnomad_zero_rows_return_None (w : World) (self : Symetrics)
    (variant : VariantObject) (db : Database) :
  _genome variant = hg38 ->
  opens w (_gnomad_db self) db ->
  execute db (gnomad_query variant) = Some [] ->
  get_gnomad_data w self variant
  = ([Executed (gnomad_query variant); LogError "Variant not found"],
     Returned None).
Proof.
  unfold opens, get_gnomad_data. intros -> Hopen Hexec.
  now run_lookup Hopen Hexec.
Qed.

(** A store that cannot be opened is logged and answered with [None] by
    every lookup. *)
Lemma unavailable_store_returns_None (w : World) (self : Symetrics)
    (variant : VariantObject) :
  assoc (database (_db self)) (stores w) = None ->
  get_silva_score w self variant
  = ([LogError (connection_failed (_db self))], Returned None) /\
  get_surf_score w self variant
  = ([LogError (connection_failed (_db self))], Returned None) /\
  get_synvep_score w self variant
  = ([LogError (connection_failed (_db self))], Returned None) /\
  get_spliceai_score w self variant
  = ([LogError (connection_failed (_db self))], Returned SpliceNone) /\
  liftover w self variant
  = ([LogError (connection_failed (_db self))], Returned None).
Proof.
  intro H.
  unfold get_silva_score, get_surf_score, get_synvep_score,
    get_spliceai_score, liftover, try_except_Error, enter.
  rewrite H. cbn. repeat split.
Qed.

(** ** The synonymous-pathogenicity lookup in hg19 coordinates *)

(** C2 (code defect).  The hg19 branch of [get_synvep_score] selects the
    hg19 position but still filters on [pos_GRCh38].  The hg19 variant
    7:91763673 C>A has its row in the table ([docstring_row], keyed by the
    hg19 column [pos]), yet the lookup finds nothing and raises; with a
    second row whose hg38 position is that number the lookup answers with
    that other row, whose POS is not the position asked for. *)
Theorem synvep_hg19_filters_on_hg38_position :
  keyed_by "chr" "pos" "ref" "alt" variant_hg19 docstring_row /\
  get_synvep_score (world_of bridge_only) api variant_hg19
  = ([Executed (synvep_query variant_hg19)], Raised IndexError) /\
  result (get_synvep_score (world_of bridge_both) api variant_hg19)
  = Returned (Some [("CHR", VInt 7); ("POS", VInt 91392987);
                    ("REF", VText "C"); ("ALT", VText "A");
                    ("GENE", VText "AKAP9"); ("SYNVEP", VReal (1 # 2))]) /\
  Some (VInt 91392987) <> Some (_pos variant_hg19).
Proof.
  split; [repeat split|].
  split; [reflexivity|].
  split; [reflexivity|].
  discriminate.
Qed.

(** For the lookups with one position column the first matching row is
    returned, so the four key fields echo the variant. *)
Lemma silva_echoes_key (w : World) (self : Symetrics)
    (variant : VariantObject) (d : dict) :
  result (get_silva_score w self variant) = Returned (Some d) ->
  assoc "CHR" d = Some (_chr variant) /\
  assoc "POS" d = Some (_pos variant) /\
  assoc "REF" d = Some (_ref variant) /\
  assoc "ALT" d = Some (_alt variant).
Proof.
  unfold get_silva_score, try_except_Error, enter, fetchall, execute.
  destruct (assoc (database (_db self)) (stores w)) as [db|];
    [|cbn; discriminate].
  cbn. destruct (assoc "SILVA" db) as [table|]; [|cbn; discriminate].
  destruct (scan (silva_query variant) table) as [[|t ts]|] eqn:E;
    [cbn; discriminate| |cbn; discriminate].
  apply scan_first in E as (before & row & after & _ & _ & Hw & Hp).
  apply eval_where_variant in Hw as (Hc & Hpos & Hr & Ha).
  cbn in Hp. rewrite Hc, Hpos, Hr, Ha in Hp.
  destruct (assoc "gene" row); [|discriminate].
  destruct (assoc "#RSCU" row); [|discriminate].
  destruct (assoc "dRSCU" row); [|discriminate].
  destruct (assoc "#GERP++" row); [|discriminate].
  destruct (assoc "#CpG?" row); [|discriminate].
  destruct (assoc "CpG_exon" row); [|discriminate].
  injection Hp as <-. cbn. intro H. injection H as <-. now cbn.
Qed.

(** In hg38 coordinates the synonymous-pathogenicity lookup echoes the
    key as well. *)
Lemma synvep_hg38_echoes_key (w : World) (self : Symetrics)
    (variant : VariantObject) (d : dict) :
  _genome variant = hg38 ->
  result (get_synvep_score w self variant) = Returned (Some d) ->
  assoc "CHR" d = Some (_chr variant) /\
  assoc "POS" d = Some (_pos variant) /\
  assoc "REF" d = Some (_ref variant) /\
  assoc "ALT" d = Some (_alt variant).
Proof.
  intro Hg.
  unfold get_synvep_score, try_except_Error, enter, fetchall, execute.
  destruct (assoc (database (_db self)) (stores w)) as [db|];
    [|cbn; discriminate].
  unfold synvep_query. rewrite Hg.
  cbn. destruct (assoc "SYNVEP" db) as [table|]; [|cbn; discriminate].
  match goal with
  | |- context [scan ?q table] =>
      destruct (scan q table) as [[|t ts]|] eqn:E;
        [cbn; discriminate| |cbn; discriminate]
  end.
  apply scan_first in E as (before & row & after & _ & _ & Hw & Hp).
  apply eval_where_variant in Hw as (Hc & Hpos & Hr & Ha).
  cbn in Hp. rewrite Hc, Hpos, Hr, Ha in Hp.
  destruct (assoc "HGNC_gene_symbol" row); [|discriminate].
  destruct (assoc "synVep" row); [|discriminate].
  injection Hp as <-. cbn. intro H. injection H as <-. now cbn.
Qed.

(** ** The splice-effect lookup *)

(** C3 (code defect).  [get_spliceai_score] enters the scoped handle but
    then asks [self._conn] for the cursor; that attribute is [None] on
    every object [__init__] builds, so whenever the store opens the call
    ends in [AttributeError] before any statement runs, whatever the
    table holds: no record and no [MAX_DS] is returned. *)
Theorem spliceai_raises_AttributeError (w : World) (config : Config)
    (variant : VariantObject) (db : Database) :
  opens w (_db (Symetrics_init config)) db ->
  get_spliceai_score w (Symetrics_init config) variant
  = ([], Raised AttributeError).
Proof.
  unfold opens, get_spliceai_score, try_except_Error, enter.
  intro Hopen. rewrite Hopen. reflexivity.
Qed.

Lemma spliceai_raises_AttributeError_witness :
  opens (world_of splice_store) (_db (Symetrics_init sample_config))
    splice_store /\
  execute splice_store (spliceai_query variant_hg38)
  = Some [[VInt 7; VInt 91763673; VText "C"; VText "A";
           VText "A|AKAP9|0.2|0.9|0.1|0.05|-12|3|40|-7"]] /\
  get_spliceai_score (world_of splice_store) (Symetrics_init sample_config)
    variant_hg38
  = ([], Raised AttributeError).
Proof.
  split; [reflexivity|].
  split; [reflexivity|].
  exact (spliceai_raises_AttributeError (world_of splice_store) sample_config
           variant_hg38 splice_store eq_refl).
Defined.

(** Had the cursor been taken from the scoped handle, the same row would
    give one record per matching row, in a list, with [MAX_DS] the largest
    of the four delta scores as text. *)
Lemma spliceai_with_connection :
  get_spliceai_score (world_of splice_store)
    {| _db := _db api; _conn := Some splice_store;
       _collection := _collection api; _gnomad_db := _gnomad_db api |}
    variant_hg38
  = ([Executed (spliceai_query variant_hg38)],
     Returned (SpliceRecords
       [[("CHR", VInt 7); ("POS", VInt 91763673); ("REF", VText "C");
         ("ALT", VText "A"); ("MAX_DS", VText "0.9")]])).
Proof. reflexivity. Qed.

(** ** The surface-accessibility lookup *)

(** C4 (code defect).  [get_surf_score] selects six columns, CHR, POS,
    REF, ALT, GENE, SURF, and builds its record from the first five: the
    key [SURF] is filled from index 4, which is the GENE column, the SURF
    value at index 5 is never read, and the record has no GENE key.  So
    for every matched lookup the [SURF] field is the gene of the matched
    row. *)
Theorem surf_field_holds_gene (w : World) (self : Symetrics)
    (variant : VariantObject) (db : Database) (table : Table)
    (t : tuple) (ts : list tuple) :
  opens w (_db self) db ->
  assoc "SURF" db = Some table ->
  scan (surf_query variant) table = Some (t :: ts) ->
  exists (row : Row) (d : dict),
    In row table /\
    keyed_by "CHR" "POS" "REF" "ALT" variant row /\
    result (get_surf_score w self variant) = Returned (Some d) /\
    assoc "SURF" d = assoc "GENE" row /\
    assoc "GENE" d = None /\
    map fst d = ["CHR"; "POS"; "REF"; "ALT"; "SURF"].
Proof.
  unfold opens. intros Hopen Htable Hscan.
  destruct (scan_first _ _ _ _ Hscan)
    as (before & row & after & -> & _ & Hw & Hp).
  apply eval_where_variant in Hw.
  assert (Hkey := Hw). destruct Hw as (Hc & Hpos & Hr & Ha).
  cbn in Hp. rewrite Hc, Hpos, Hr, Ha in Hp.
  destruct (assoc "GENE" row) as [g|] eqn:Eg; [|discriminate].
  destruct (assoc "SURF" row) as [s|]; [|discriminate].
  injection Hp as <-.
  exists row.
  exists [("CHR", _chr variant); ("POS", _pos variant);
          ("REF", _ref variant); ("ALT", _alt variant); ("SURF", g)].
  split. { apply in_or_app. right. now left. }
  split; [exact Hkey|].
  split.
  - unfold get_surf_score, try_except_Error, enter, fetchall, execute.
    rewrite Hopen. cbn. rewrite Htable, Hscan. reflexivity.
  - cbn. rewrite Eg. repeat split.
Qed.

Lemma surf_field_holds_gene_witness :
  opens (world_of surf_store) (_db api) surf_store /\
  assoc "SURF" surf_store = Some [surf_row] /\
  assoc "SURF" surf_row = Some (VReal (3 # 10)) /\
  exists d : dict,
    result (get_surf_score (world_of surf_store) api variant_hg38)
    = Returned (Some d) /\
    assoc "SURF" d = Some (VText "AKAP9") /\
    assoc "GENE" d = None.
Proof.
  split; [reflexivity|].
  split; [reflexivity|].
  split; [reflexivity|].
  destruct (surf_field_holds_gene (world_of surf_store) api variant_hg38
              surf_store [surf_row] _ _ eq_refl eq_refl eq_refl)
    as (row & d & Hin & _ & Hres & Hsurf & Hgene & _).
  exists d.
  destruct Hin as [<-|[]].
  split; [exact Hres|].
  split; [exact Hsurf | exact Hgene].
Defined.

(** ** Genome builds and single-build tables *)

(** C7 (counterexample).  The conservation table is indexed in hg19, yet
    a variant tagged hg38 is looked up all the same and answered with the
    hg19 row at that number: the lookup does not reject the other build. *)
Lemma silva_answers_hg38_variant :
  get_silva_score (world_of silva_store) api variant_hg38
  = ([Executed (silva_query variant_hg38)],
     Returned (Some [("CHR", VInt 7); ("POS", VInt 91763673);
                     ("REF", VText "C"); ("ALT", VText "A");
                     ("GENE", VText "AKAP9"); ("RSCU", VReal (7 # 10));
                     ("dRSCU", VReal (1 # 10)); ("GERP", VReal (4 # 1));
                     ("CPG", VInt 0); ("CPGX", VInt 1)])) /\
  ~ rejects_other_build get_silva_score hg19.
Proof.
  split; [reflexivity|].
  intro H.
  destruct (H (world_of silva_store) api variant_hg38) as [Hq _].
  - discriminate.
  - discriminate Hq.
Qed.

(** C7 (amended).  Only the population-frequency lookup looks at the
    build tag: for an hg19 variant it runs no statement, prints a notice
    and returns [None], the value it also returns, after logging
    "Variant not found", when an hg38 variant matches no row.  The
    conservation and surface lookups never read the tag: they run the
    same statement and end the same way whichever build the variant is
    tagged with. *)
Theorem build_tag_handling (w : World) (self : Symetrics)
    (variant : VariantObject) :
  get_gnomad_data w self (retag variant hg19)
  = ([Printed unsupported_notice], Returned None) /\
  (forall db,
     opens w (_gnomad_db self) db ->
     execute db (gnomad_query variant) = Some [] ->
     get_gnomad_data w self (retag variant hg38)
     = ([Executed (gnomad_query variant); LogError "Variant not found"],
        Returned None)) /\
  (forall genome,
     get_silva_score w self (retag variant genome)
     = get_silva_score w self variant) /\
  (forall genome,
     get_surf_score w self (retag variant genome)
     = get_surf_score w self variant).
Proof.
  split; [reflexivity|].
  split.
  - intros db Hopen Hexec.
    now apply (gnomad_zero_rows_return_None w self (retag variant hg38) db).
  - split; intro genome; reflexivity.
Qed.

Lemma build_tag_handling_witness :
  opens gnomad_world (_gnomad_db api) [("gnomad_db", [])] /\
  execute [("gnomad_db", [])] (gnomad_query variant_hg38) = Some [] /\
  runs_query (get_gnomad_data gnomad_world api variant_hg19) = false /\
  result (get_gnomad_data gnomad_world api variant_hg19) = Returned None /\
  runs_query (get_gnomad_data gnomad_world api variant_hg38) = true /\
  result (get_gnomad_data gnomad_world api variant_hg38) = Returned None.
Proof.
  pose proof (build_tag_handling gnomad_world api variant_hg38)
    as (H19 & H38 & _).
  specialize (H38 [("gnomad_db", [])] eq_refl eq_refl).
  change (retag variant_hg38 hg19) with variant_hg19 in H19.
  change (retag variant_hg38 hg38) with variant_hg38 in H38.
  split; [reflexivity|].
  split; [reflexivity|].
  rewrite H19, H38.
  split; [reflexivity|].
  split; [reflexivity|].
  split; reflexivity.
Defined.

(** ** Liftover through the bridge table *)

Lemma liftover_query_where (variant : VariantObject) :
  q_where (liftover_query variant)
  = where_variant "chr" (position_column (_genome variant)) "ref" "alt"
      variant.
Proof. unfold liftover_query. now destruct (_genome variant). Qed.

Lemma liftover_query_select (variant : VariantObject) :
  q_select (liftover_query variant)
  = ["chr"; position_column (other_build (_genome variant)); "ref"; "alt";
     "HGNC_gene_symbol"; "synVep"].
Proof. unfold liftover_query. now destruct (_genome variant). Qed.

Lemma liftover_query_from (variant : VariantObject) :
  q_from (liftover_query variant) = "SYNVEP".
Proof. unfold liftover_query. now destruct (_genome variant). Qed.

Lemma new_reference_other (variant : VariantObject) :
  new_reference variant = other_build (_genome variant).
Proof. unfold new_reference. now destruct (_genome variant). Qed.

Lemma scan_finds (q : Query) (table : Table) (found : list tuple) (row : Row) :
  scan q table = Some found ->
  In row table ->
  eval_where (q_where q) row = Some true ->
  found <> [].
Proof.
  intros Hscan Hin Hrow ->.
  revert Hscan Hin. induction table as [|r rest IH]; simpl; [tauto|].
  destruct (eval_where (q_where q) r) as [b|] eqn:Eb; [|discriminate].
  destruct (project (q_select q) r) as [t|]; [|discriminate].
  destruct (scan q rest) as [ts|]; [|discriminate].
  destruct b; [discriminate|].
  intros H [->|Hin].
  - congruence.
  - injection H as ->. now apply IH.
Qed.

(** What [liftover] does once the store is open and the statement has
    returned a first tuple. *)
Lemma liftover_first (w : World) (self : Symetrics) (variant : VariantObject)
    (db : Database) (table : Table) (row : Row) (t : tuple) (ts : list tuple) :
  opens w (_db self) db ->
  assoc "SYNVEP" db = Some table ->
  scan (liftover_query variant) table = Some (t :: ts) ->
  eval_where (q_where (liftover_query variant)) row = Some true ->
  project (q_select (liftover_query variant)) row = Some t ->
  exists lifted,
    liftover w self variant
    = ([Executed (liftover_query variant)], Returned (Some lifted)) /\
    in_bridge variant row /\
    assoc "chr" row = Some (_chr lifted) /\
    assoc (position_column (other_build (_genome variant))) row
    = Some (_pos lifted) /\
    assoc "ref" row = Some (_ref lifted) /\
    assoc "alt" row = Some (_alt lifted) /\
    _genome lifted = other_build (_genome variant).
Proof.
  unfold opens. intros Hopen Htable Hscan Hw Hp.
  rewrite liftover_query_where in Hw. apply eval_where_variant in Hw.
  rewrite liftover_query_select in Hp. cbn in Hp.
  destruct (assoc "chr" row) as [c|] eqn:Ec; [|discriminate].
  destruct (assoc (position_column (other_build (_genome variant))) row)
    as [p|] eqn:Epos; [|discriminate].
  destruct (assoc "ref" row) as [r|] eqn:Er; [|discriminate].
  destruct (assoc "alt" row) as [a|] eqn:Ea; [|discriminate].
  destruct (assoc "HGNC_gene_symbol" row) as [g|]; [|discriminate].
  destruct (assoc "synVep" row) as [s|]; [|discriminate].
  injection Hp as <-.
  exists {| _chr := c; _pos := p; _ref := r; _alt := a;
            _genome := other_build (_genome variant) |}.
  split.
  - unfold liftover, try_except_Error, enter, fetchall, execute.
    rewrite Hopen. cbn. rewrite liftover_query_from, Htable, Hscan. cbn.
    now rewrite new_reference_other.
  - repeat split; auto; apply Hw.
Qed.

(** C8.  For a variant with a matching row in the bridge table, [liftover]
    filters SYNVEP on the position column of the variant's own build; the
    variant it returns takes chromosome, reference and alternate allele
    from the first matching row, its position from that row's column of
    the opposite build, and carries the opposite build tag. *)
Theorem liftover_translates (w : World) (self : Symetrics)
    (variant : VariantObject) (db : Database) (table : Table) (row0 : Row) :
  opens w (_db self) db ->
  assoc "SYNVEP" db = Some table ->
  bridge_table table ->
  In row0 table ->
  in_bridge variant row0 ->
  q_where (liftover_query variant)
  = where_variant "chr" (position_column (_genome variant)) "ref" "alt"
      variant /\
  exists before row after lifted,
    table = (before ++ row :: after)%list /\
    (forall r, In r before -> ~ in_bridge variant r) /\
    in_bridge variant row /\
    liftover w self variant
    = ([Executed (liftover_query variant)], Returned (Some lifted)) /\
    assoc "chr" row = Some (_chr lifted) /\
    assoc (position_column (other_build (_genome variant))) row
    = Some (_pos lifted) /\
    assoc "ref" row = Some (_ref lifted) /\
    assoc "alt" row = Some (_alt lifted) /\
    _genome lifted = other_build (_genome variant).
Proof.
  intros Hopen Htable Hschema Hin0 Hrow0.
  split; [apply liftover_query_where|].
  destruct (scan_total (liftover_query variant) table) as [found Hscan].
  { intros row Hin. specialize (Hschema row Hin).
    rewrite liftover_query_where, liftover_query_select.
    split; intros c Hc; apply Hschema; unfold bridge_columns;
      destruct (_genome variant); simpl in Hc |- *; tauto. }
  assert (Hne : found <> []).
  { apply (scan_finds _ _ _ row0 Hscan Hin0).
    rewrite liftover_query_where. now apply eval_where_variant. }
  destruct found as [|t ts]; [congruence|].
  destruct (scan_first _ _ _ _ Hscan)
    as (before & row & after & Hsplit & Hbefore & Hw & Hp).
  destruct (liftover_first w self variant db table row t ts
              Hopen Htable Hscan Hw Hp)
    as (lifted & Hrun & Hkey & Hc & Hpos & Hr & Ha & Hg).
  exists before, row, after, lifted.
  repeat split; auto; try apply Hkey.
  intros r Hr0 Hbridge.
  specialize (Hbefore r Hr0).
  rewrite liftover_query_where in Hbefore.
  apply eval_where_variant in Hbridge. congruence.
Qed.

Lemma liftover_translates_witness :
  opens (world_of bridge_only) (_db api) bridge_only /\
  assoc "SYNVEP" bridge_only = Some [docstring_row] /\
  in_bridge variant_hg19 docstring_row /\
  exists lifted,
    result (liftover (world_of bridge_only) api variant_hg19)
    = Returned (Some lifted) /\
    _chr lifted = VInt 7 /\
    _pos lifted = VInt 92134359 /\
    _ref lifted = VText "C" /\
    _alt lifted = VText "A" /\
    _genome lifted = hg38.
Proof.
  assert (Hschema : bridge_table [docstring_row]).
  { intros row [<-|[]] c Hc. unfold bridge_columns in Hc. simpl in Hc.
    repeat (destruct Hc as [<-|Hc]; [discriminate|]). destruct Hc. }
  assert (Hkey : in_bridge variant_hg19 docstring_row) by (repeat split).
  split; [reflexivity|].
  split; [reflexivity|].
  split; [exact Hkey|].
  destruct (liftover_translates (world_of bridge_only) api variant_hg19
              bridge_only [docstring_row] docstring_row
              eq_refl eq_refl Hschema (or_introl eq_refl) Hkey)
    as (_ & before & row & after & lifted & Hsplit & _ & _ & Hrun
        & Hc & Hp & Hr & Ha & Hg).
  exists lifted.
  assert (Hrow : row = docstring_row).
  { destruct before as [|b [|b' before]]; simpl in Hsplit.
    - now injection Hsplit.
    - discriminate Hsplit.
    - discriminate Hsplit. }
  subst row. simpl in Hc, Hp, Hr, Ha, Hg.
  rewrite Hrun.
  split; [reflexivity|].
  split; [congruence|].
  split; [congruence|].
  split; [congruence|].
  split; [congruence | exact Hg].
Defined.

(** What a successful [liftover] tells about the table. *)
Lemma liftover_inv (w : World) (self : Symetrics) (variant : VariantObject)
    (db : Database) (table : Table) (lifted : VariantObject) :
  opens w (_db self) db ->
  assoc "SYNVEP" db = Some table ->
  result (liftover w self variant) = Returned (Some lifted) ->
  exists row,
    In row table /\
    in_bridge variant row /\
    assoc "chr" row = Some (_chr lifted) /\
    assoc (position_column (other_build (_genome variant))) row
    = Some (_pos lifted) /\
    assoc "ref" row = Some (_ref lifted) /\
    assoc "alt" row = Some (_alt lifted) /\
    _genome lifted = other_build (_genome variant).
Proof.
  intros Hopen Htable Hres.
  destruct (scan (liftover_query variant) table) as [[|t ts]|] eqn:Hscan.
  - exfalso. revert Hres.
    unfold liftover, try_except_Error, enter, fetchall, execute.
    unfold opens in Hopen. rewrite Hopen. cbn.
    rewrite liftover_query_from, Htable, Hscan. cbn. discriminate.
  - destruct (scan_first _ _ _ _ Hscan)
      as (before & row & after & Hsplit & _ & Hw & Hp).
    destruct (liftover_first w self variant db table row t ts
                Hopen Htable Hscan Hw Hp)
      as (lifted' & Hrun & Hkey & Hrest).
    rewrite Hrun in Hres. cbn in Hres. injection Hres as <-.
    exists row. split; [|split; assumption].
    rewrite Hsplit. apply in_or_app. right. now left.
  - exfalso. revert Hres.
    unfold liftover, try_except_Error, enter, fetchall, execute.
    unfold opens in Hopen. rewrite Hopen. cbn.
    rewrite liftover_query_from, Htable, Hscan. cbn. discriminate.
Qed.

Lemma other_build_involutive (genome : GenomeReference) :
  other_build (other_build genome) = genome.
Proof. now destruct genome. Qed.

(** C9.  Translating a variant to the other build and the result back,
    both lookups matching, gives a variant with the chromosome, reference
    allele and alternate allele of the original (and its build tag); the
    position is the original one too when the bridge table maps the
    variant uniquely. *)
Theorem liftover_round_trip (w : World) (self : Symetrics)
    (variant lifted back : VariantObject) (db : Database) (table : Table) :
  opens w (_db self) db ->
  assoc "SYNVEP" db = Some table ->
  result (liftover w self variant) = Returned (Some lifted) ->
  result (liftover w self lifted) = Returned (Some back) ->
  _chr back = _chr variant /\
  _ref back = _ref variant /\
  _alt back = _alt variant /\
  _genome back = _genome variant /\
  (unique_mapping table variant -> _pos back = _pos variant).
Proof.
  intros Hopen Htable Hthere Hback.
  destruct (liftover_inv _ _ _ _ _ _ Hopen Htable Hthere)
    as (r & Hin & (Kc & Kp & Kr & Ka) & Hc & Hp & Hr & Ha & Hg).
  destruct (liftover_inv _ _ _ _ _ _ Hopen Htable Hback)
    as (r' & Hin' & (Kc' & Kp' & Kr' & Ka') & Hc' & Hp' & Hr' & Ha' & Hg').
  rewrite Hg in Kp', Hp', Hg'. rewrite other_build_involutive in Hp', Hg'.
  split; [congruence|].
  split; [congruence|].
  split; [congruence|].
  split; [exact Hg'|].
  intro Huniq.
  assert (E : assoc (position_column (_genome variant)) r'
              = assoc (position_column (_genome variant)) r).
  { apply Huniq; auto; try congruence. now repeat split. }
  congruence.
Qed.

Lemma liftover_round_trip_witness :
  opens (world_of bridge_only) (_db api) bridge_only /\
  assoc "SYNVEP" bridge_only = Some [docstring_row] /\
  result (liftover (world_of bridge_only) api variant_hg19)
  = Returned (Some (variant_at 92134359 hg38)) /\
  result (liftover (world_of bridge_only) api (variant_at 92134359 hg38))
  = Returned (Some variant_hg19) /\
  unique_mapping [docstring_row] variant_hg19 /\
  _chr variant_hg19 = VInt 7 /\
  _pos variant_hg19 = VInt 91763673.
Proof.
  assert (Huniq : unique_mapping [docstring_row] variant_hg19).
  { intros r r' [<-|[]] [<-|[]] _ _ _ _ _. reflexivity. }
  destruct (liftover_round_trip (world_of bridge_only) api variant_hg19
              (variant_at 92134359 hg38) variant_hg19 bridge_only
              [docstring_row] eq_refl eq_refl eq_refl eq_refl)
    as (Hc & _ & _ & _ & Hp).
  split; [reflexivity|].
  split; [reflexivity|].
  split; [reflexivity|].
  split; [reflexivity|].
  split; [exact Huniq|].
  split; [exact Hc | exact (Hp Huniq)].
Defined.

Lemma liftover_round_trip_ambiguous :
  result (liftover (world_of ambiguous_bridge) api (variant_at 91763999 hg19))
  = Returned (Some (variant_at 92134359 hg38)) /\
  result (liftover (world_of ambiguous_bridge) api (variant_at 92134359 hg38))
  = Returned (Some (variant_at 91763673 hg19)) /\
  ~ unique_mapping [synvep_row 91763673 92134359; synvep_row 91763999 92134359]
      (variant_at 91763999 hg19).
Proof.
  split; [reflexivity|].
  split; [reflexivity|].
  intro H.
  specialize (H (synvep_row 91763999 92134359) (synvep_row 91763673 92134359)).
  simpl in H.
  assert (E : Some (VInt 91763673) = Some (VInt 91763999)).
  { apply H; auto. repeat split. }
  discriminate E.
Qed.

(** The way back always finds a row: the row that answered the first
    translation matches the translated variant. *)
Lemma liftover_back_matches (w : World) (self : Symetrics)
    (variant lifted : VariantObject) (db : Database) (table : Table) :
  opens w (_db self) db ->
  assoc "SYNVEP" db = Some table ->
  result (liftover w self variant) = Returned (Some lifted) ->
  exists row, In row table /\ in_bridge lifted row.
Proof.
  intros Hopen Htable Hthere.
  destruct (liftover_inv _ _ _ _ _ _ Hopen Htable Hthere)
    as (r & Hin & (Kc & Kp & Kr & Ka) & Hc & Hp & Hr & Ha & Hg).
  exists r. split; [exact Hin|].
  unfold in_bridge, keyed_by. rewrite Hg. auto.
Qed.

(** ** Gene-level scores: membership, dispatch and scaling *)

Lemma is_member_In (MetricsGroup : list string) (group : string) :
  is_member MetricsGroup group = true <-> In group MetricsGroup.
Proof.
  unfold is_member. rewrite existsb_exists. split.
  - intros (m & Hin & E). apply String.eqb_eq in E. now subst.
  - intro Hin. exists group. split; [exact Hin | apply String.eqb_refl].
Qed.

Lemma is_member_not_In (MetricsGroup : list string) (group : string) :
  ~ In group MetricsGroup -> is_member MetricsGroup group = false.
Proof.
  intro H. destruct (is_member MetricsGroup group) eqn:E; [|reflexivity].
  apply is_member_In in E. contradiction.
Qed.

Lemma filter_combine_map {A B C : Type} (f : A -> B) (p : A -> bool)
    (g : A * B -> C) (l : list A) :
  map g (filter (fun r => p (fst r)) (combine l (map f l)))
  = map (fun a => g (a, f a)) (filter p l).
Proof.
  induction l as [|a l IH]; simpl; [reflexivity|].
  destruct (p a); simpl; now rewrite IH.
Qed.

Lemma fit_transform_nonempty (xs : list R) :
  xs <> [] -> fit_transform xs = ret (map (transform xs) xs).
Proof. destruct xs; [congruence | reflexivity]. Qed.

Lemma case_body_loaded (w : World) (constraints : list (string * string))
    (group gene path : string) (table : ConstraintTable) :
  assoc group constraints = Some path ->
  assoc path (files w) = Some table ->
  rows table <> [] ->
  case_body w constraints (gene_column table) group gene
  = ([ReadCsv path],
     Returned (Some (map (scaled_record group (map z (rows table)))
                       (filter (fun r => String.eqb (gene_id r) gene)
                          (rows table))))).
Proof.
  intros Hpath Hfile Hrows.
  assert (Hz : map z (rows table) <> []).
  { destruct (rows table); [congruence | discriminate]. }
  unfold case_body, subscript, read_csv, gene_attribute.
  rewrite Hpath. cbn [bind emit ret app]. rewrite Hfile.
  cbn [bind emit ret app]. rewrite (fit_transform_nonempty _ Hz).
  rewrite String.eqb_refl.
  cbn [bind emit ret app].
  rewrite map_map.
  rewrite (filter_combine_map (fun r => transform (map z (rows table)) (z r))
             (fun r => String.eqb (gene_id r) gene) (to_record group)).
  reflexivity.
Qed.

Lemma get_prop_score_loaded (MetricsGroup : list string) (w : World)
    (self : Symetrics) (group gene : string) (table : ConstraintTable) :
  names_its_cases MetricsGroup ->
  In group MetricsGroup ->
  loads w self group table ->
  exists path,
    get_prop_score MetricsGroup w self group gene
    = ([ReadCsv path],
       Returned (Some (map (scaled_record group (map z (rows table)))
                         (filter (fun r => String.eqb (gene_id r) gene)
                            (rows table))))).
Proof.
  intros [Hsynvep Hsurf] Hin ((path & Hpath & Hfile) & Hcol & Hrows).
  exists path. unfold get_prop_score, member_name.
  apply is_member_In in Hin, Hsynvep, Hsurf. rewrite Hin, Hsynvep.
  pose proof (case_body_loaded w (symetrics_constraints (_collection self))
                group gene path table Hpath Hfile Hrows) as Hbody.
  rewrite Hcol in Hbody. unfold gene_column_of in Hbody.
  cbn [bind ret app].
  destruct (String.eqb group "SYNVEP"); simpl in Hbody.
  - now rewrite Hbody.
  - rewrite Hsurf. cbn [bind ret app].
    destruct (String.eqb group "SURF"); simpl in Hbody; now rewrite Hbody.
Qed.

Lemma scale_nonzero (xs : list R) : scale xs <> 0%R.
Proof.
  unfold scale. destruct (Req_dec_T (sqrt (variance xs)) 0); [lra | assumption].
Qed.

(** A scaled value is zero exactly at the mean of the fitted column. *)
Lemma transform_zero_iff (fitted : list R) (x : R) :
  transform fitted x = 0%R <-> x = mean fitted.
Proof.
  unfold transform, Rdiv. split.
  - intro H. apply Rmult_integral in H as [H|H]; [lra|].
    exfalso. exact (Rinv_neq_0_compat _ (scale_nonzero fitted) H).
  - intros ->. rewrite Rminus_diag. apply Rmult_0_l.
Qed.

Lemma mean_one_to_five : mean [1; 2; 3; 4; 5]%R = 3%R.
Proof. unfold mean, total. simpl. lra. Qed.

(** C5.  For a valid group whose constraint table loads,
    [get_prop_score] fits the scaler on the [z] column of all rows of the
    table and only then keeps the rows of the requested gene: each record
    returned pairs a row's [z] with its value scaled by the mean and
    deviation of the whole column.  So when that column is 1, 2, 3, 4, 5
    a returned record has scaled value 0 exactly when its raw value is 3,
    whichever gene was asked for. *)
Theorem scaling_fitted_before_filtering (MetricsGroup : list string)
    (w : World) (self : Symetrics) (group gene : string)
    (table : ConstraintTable) :
  names_its_cases MetricsGroup ->
  In group MetricsGroup ->
  loads w self group table ->
  exists records,
    result (get_prop_score MetricsGroup w self group gene)
    = Returned (Some records) /\
    records = map (scaled_record group (map z (rows table)))
                (filter (fun r => String.eqb (gene_id r) gene) (rows table)) /\
    (forall rec, In rec records ->
       NORM_SYMETRIC_SCORE rec
       = ((SYMETRIC_SCORE rec - mean (map z (rows table)))
          / scale (map z (rows table)))%R) /\
    (map z (rows table) = [1; 2; 3; 4; 5]%R ->
     forall rec, In rec records ->
       (SYMETRIC_SCORE rec = 3%R <-> NORM_SYMETRIC_SCORE rec = 0%R)).
Proof.
  intros Hcases Hin Hloads.
  destruct (get_prop_score_loaded MetricsGroup w self group gene table
              Hcases Hin Hloads) as [path Hrun].
  eexists. split; [rewrite Hrun; reflexivity|].
  split; [reflexivity|].
  split.
  - intros rec Hrec. apply in_map_iff in Hrec as (r & <- & _). reflexivity.
  - intros Hz rec Hrec. apply in_map_iff in Hrec as (r & <- & _).
    cbn [SYMETRIC_SCORE NORM_SYMETRIC_SCORE scaled_record].
    rewrite transform_zero_iff, Hz, mean_one_to_five. reflexivity.
Qed.

Lemma five_genes_loads : loads constraint_world api "SYNVEP" five_genes.
Proof.
  split; [exists "synvep.csv"; split; reflexivity|].
  split; [reflexivity | discriminate].
Defined.

Lemma SYNVEP_documented : In "SYNVEP" documented_groups.
Proof. left. reflexivity. Defined.

Lemma documented_groups_name_cases : names_its_cases documented_groups.
Proof.
  split; [exact SYNVEP_documented|].
  unfold documented_groups. simpl. tauto.
Defined.

Lemma scaling_fitted_before_filtering_witness :
  names_its_cases documented_groups /\
  In "SYNVEP" documented_groups /\
  loads constraint_world api "SYNVEP" five_genes /\
  map z (rows five_genes) = [1; 2; 3; 4; 5]%R /\
  exists rec,
    result (get_prop_score documented_groups constraint_world api
              "SYNVEP" "DNMT1")
    = Returned (Some [rec]) /\
    GENE rec = "DNMT1" /\
    SYMETRIC_SCORE rec = 3%R /\
    NORM_SYMETRIC_SCORE rec = 0%R.
Proof.
  split; [exact documented_groups_name_cases|].
  split; [exact SYNVEP_documented|].
  split; [exact five_genes_loads|].
  split; [reflexivity|].
  destruct (scaling_fitted_before_filtering documented_groups
              constraint_world api "SYNVEP" "DNMT1" five_genes
              documented_groups_name_cases SYNVEP_documented
              five_genes_loads)
    as (records & Hres & Hrecords & _ & Hzero).
  simpl in Hrecords.
  eexists. split; [rewrite Hres, Hrecords; reflexivity|].
  split; [reflexivity|].
  split; [reflexivity|].
  apply (Hzero eq_refl).
  - rewrite Hrecords. left. reflexivity.
  - reflexivity.
Defined.

(** Fitting after the filter would give another value: alone, the row of
    A1BG scales to 0, while the program scales it against all five rows and
    returns a value that is not 0. *)
Lemma fit_after_filter_differs :
  transform [1%R] 1%R = 0%R /\
  transform (map z (rows five_genes)) 1%R <> 0%R.
Proof.
  split.
  - apply transform_zero_iff. unfold mean, total. simpl. lra.
  - rewrite transform_zero_iff.
    change (map z (rows five_genes)) with [1; 2; 3; 4; 5]%R.
    rewrite mean_one_to_five. lra.
Qed.

(** C6.  For a group name outside the enumeration [get_prop_score] logs
    that the group is not valid and returns [None]; that is all it does:
    its trace holds no file read. *)
Theorem invalid_group_reads_no_file (MetricsGroup : list string) (w : World)
    (self : Symetrics) (group gene : string) :
  ~ In group MetricsGroup ->
  get_prop_score MetricsGroup w self group gene
  = ([LogError ("Group: " ++ group ++ " is not valid")], Returned None) /\
  forall path,
    ~ In (ReadCsv path) (trace (get_prop_score MetricsGroup w self group gene)).
Proof.
  intro Hout.
  assert (E : get_prop_score MetricsGroup w self group gene
              = ([LogError ("Group: " ++ group ++ " is not valid")],
                 Returned None)).
  { unfold get_prop_score. now rewrite (is_member_not_In _ _ Hout). }
  split; [exact E|].
  intros path. rewrite E. simpl. intro H. destruct H as [H|[]]. discriminate H.
Qed.

Lemma NOT_A_GROUP_undocumented : ~ In "NOT_A_GROUP" documented_groups.
Proof.
  unfold documented_groups. simpl.
  intros [H|[H|[H|[H|[H|[H|[H|[H|[]]]]]]]]]; discriminate H.
Defined.

Lemma invalid_group_reads_no_file_witness :
  ~ In "NOT_A_GROUP" documented_groups /\
  get_prop_score documented_groups constraint_world api "NOT_A_GROUP" "DNMT1"
  = ([LogError "Group: NOT_A_GROUP is not valid"], Returned None) /\
  ~ In (ReadCsv "synvep.csv")
      (trace (get_prop_score documented_groups constraint_world api
                "NOT_A_GROUP" "DNMT1")).
Proof.
  destruct (invalid_group_reads_no_file documented_groups constraint_world
              api "NOT_A_GROUP" "DNMT1" NOT_A_GROUP_undocumented)
    as [Hrun Hquiet].
  split; [exact NOT_A_GROUP_undocumented|].
  split; [exact Hrun | exact (Hquiet "synvep.csv")].
Defined.

Lemma filter_none {A : Type} (p : A -> bool) (l : list A) :
  (forall a, In a l -> p a = false) -> filter p l = [].
Proof.
  induction l as [|a l IH]; intro H; simpl; [reflexivity|].
  rewrite (H a (or_introl eq_refl)). apply IH.
  intros a' Ha'. apply H. now right.
Qed.



(** * Further properties of the lookups *)

(** ** Store failures *)



(** When the store opens but the statement fails (no such table, no
    such column), the lookup has run that one statement, logs the failure
    with the wording of a failed connection and returns [None]: a caller
    cannot tell a failed statement from a store that is down. *)
Theorem failed_statement_is_logged (l : table_lookup) (w : World)
    (self : Symetrics) (variant : VariantObject) (db : Database) :
  opens w (_db self) db ->
  execute db (query_of l variant) = None ->
  lookup_of l w self variant
  = ([Executed (query_of l variant);
      LogError (connection_failed (_db self))], Returned None).
Proof.
  unfold opens. intros Hopen Hexec.
  destruct l; simpl in Hexec |- *;
    [unfold get_silva_score | unfold get_surf_score | unfold get_synvep_score];
    now run_lookup Hopen Hexec.
Qed.

Lemma failed_statement_is_logged_witness :
  opens bare_world (_db api) [] /\
  execute [] (query_of Surf variant_hg38) = None /\
  get_surf_score bare_world api variant_hg38
  = ([Executed (surf_query variant_hg38);
      LogError "Connection to symetrics.db failed"], Returned None).
Proof.
  split; [reflexivity|].
  split; [reflexivity|].
  exact (failed_statement_is_logged Surf bare_world api variant_hg38 []
           eq_refl eq_refl).
Defined.

(** ** The outcomes of a table lookup *)

Lemma project_length (cols : list string) (row : Row) (t : tuple) :
  project cols row = Some t -> List.length t = List.length cols.
Proof.
  revert t. induction cols as [|c rest IH]; simpl; intros t H.
  - now injection H as <-.
  - destruct (assoc c row); [|discriminate].
    destruct (project rest row) as [t'|]; [|discriminate].
    injection H as <-. simpl. now rewrite (IH t' eq_refl).
Qed.

Lemma scan_lengths (q : Query) (table : Table) (found : list tuple) :
  scan q table = Some found ->
  forall t, In t found -> List.length t = List.length (q_select q).
Proof.
  revert found. induction table as [|r rest IH]; simpl; intros found H t Hin.
  - injection H as <-. destruct Hin.
  - destruct (eval_where (q_where q) r) as [b|]; [|discriminate].
    destruct (project (q_select q) r) as [t0|] eqn:Ep; [|discriminate].
    destruct (scan q rest) as [ts|]; [|discriminate].
    injection H as <-.
    destruct b; [destruct Hin as [<-|Hin]|].
    + now apply project_length with r.
    + now apply (IH ts).
    + now apply (IH ts).
Qed.

(** A dict display whose subscripts are all in range raises nothing. *)
Lemma build_dict_in_range (fields : list (string * nat)) (t : tuple) :
  forallb (fun f => Nat.ltb (snd f) (List.length t)) fields = true ->
  build_dict fields t
  = ([], Returned (map (fun f => (fst f, nth (snd f) t (VInt 0))) fields)).
Proof.
  induction fields as [|[k i] rest IH]; simpl; intro H; [reflexivity|].
  apply andb_true_iff in H as [Hi Hrest]. apply Nat.ltb_lt in Hi.
  unfold getitem.
  destruct (nth_error t i) as [x|] eqn:E.
  - rewrite (IH Hrest). cbn.
    now rewrite (nth_error_nth t i (VInt 0) E).
  - apply nth_error_None in E. exfalso.
    apply (Nat.lt_irrefl i). now apply Nat.lt_le_trans with (List.length t).
Qed.

Lemma execute_lengths (db : Database) (q : Query) (t : tuple)
    (ts : list tuple) :
  execute db q = Some (t :: ts) -> List.length t = List.length (q_select q).
Proof.
  unfold execute. destruct (assoc (q_from q) db) as [table|]; [|discriminate].
  intro H. apply (scan_lengths q table (t :: ts) H). now left.
Qed.

Lemma synvep_query_select_length (variant : VariantObject) :
  List.length (q_select (synvep_query variant)) = 6%nat.
Proof. unfold synvep_query. now destruct (_genome variant). Qed.

(** X2.  A call of [get_silva_score], [get_surf_score] or
    [get_synvep_score] ends in exactly one of four ways: a dict with the
    lookup's fixed keys after one statement that fetched a row; an
    [IndexError] after one statement that fetched none; [None] with a logged
    failure after one statement that failed; [None] with a logged failure
    and no statement when the store did not open.  No other exception
    leaves the call and never more than one statement is run. *)
Theorem lookup_outcomes (l : table_lookup) (w : World) (self : Symetrics)
    (variant : VariantObject) :
  (exists db t ts d,
     opens w (_db self) db /\
     execute db (query_of l variant) = Some (t :: ts) /\
     lookup_of l w self variant
     = ([Executed (query_of l variant)], Returned (Some d)) /\
     map fst d = keys_of l) \/
  (exists db,
     opens w (_db self) db /\
     execute db (query_of l variant) = Some [] /\
     lookup_of l w self variant
     = ([Executed (query_of l variant)], Raised IndexError)) \/
  (exists db,
     opens w (_db self) db /\
     execute db (query_of l variant) = None /\
     lookup_of l w self variant
     = ([Executed (query_of l variant);
         LogError (connection_failed (_db self))], Returned None)) \/
  (assoc (database (_db self)) (stores w) = None /\
   lookup_of l w self variant
   = ([LogError (connection_failed (_db self))], Returned None)).
Proof.
  destruct (assoc (database (_db self)) (stores w)) as [db|] eqn:Hopen.
  - destruct (execute db (query_of l variant)) as [[|t ts]|] eqn:Hexec.
    + right. left. exists db. repeat split; auto.
      destruct l; simpl in Hexec |- *;
        [unfold get_silva_score | unfold get_surf_score
        | unfold get_synvep_score];
        now run_lookup Hopen Hexec.
    + left. exists db, t, ts.
      pose proof (execute_lengths _ _ _ _ Hexec) as Hlen.
      destruct l; simpl in Hexec, Hlen |- *;
        try rewrite synvep_query_select_length in Hlen;
        [unfold get_silva_score | unfold get_surf_score
        | unfold get_synvep_score];
        unfold try_except_Error, enter, fetchall;
        rewrite Hopen; cbn [bind emit ret app]; rewrite Hexec;
        cbn [bind emit ret app getitem nth_error];
        (rewrite build_dict_in_range;
         [|cbn [forallb snd]; rewrite Hlen; reflexivity]);
        eexists; (split; [exact Hopen|]); (split; [reflexivity|]);
        (split; reflexivity).
    + right. right. left. exists db. repeat split; auto.
      destruct l; simpl in Hexec |- *;
        [unfold get_silva_score | unfold get_surf_score
        | unfold get_synvep_score];
        now run_lookup Hopen Hexec.
  - right. right. right. split; [reflexivity|].
    destruct l; simpl;
      [unfold get_silva_score | unfold get_surf_score
      | unfold get_synvep_score];
      unfold try_except_Error, enter; now rewrite Hopen.
Qed.

(** ** Which row answers, and which column fills which key *)

Lemma execute_first_match (db : Database) (q : Query) (table : Table)
    (row0 : Row) :
  assoc (q_from q) db = Some table ->
  (forall row, In row table ->
     has_columns (q_select q) row /\ has_columns (map fst (q_where q)) row) ->
  In row0 table ->
  eval_where (q_where q) row0 = Some true ->
  exists before row after t ts,
    table = (before ++ row :: after)%list /\
    (forall r, In r before -> eval_where (q_where q) r = Some false) /\
    eval_where (q_where q) row = Some true /\
    project (q_select q) row = Some t /\
    execute db q = Some (t :: ts).
Proof.
  intros Htable Hschema Hin Hrow0.
  destruct (scan_total q table Hschema) as [found Hscan].
  pose proof (scan_finds _ _ _ _ Hscan Hin Hrow0) as Hne.
  destruct found as [|t ts]; [congruence|].
  destruct (scan_first _ _ _ _ Hscan)
    as (before & row & after & Hsplit & Hbefore & Hw & Hp).
  exists before, row, after, t, ts. repeat split; auto.
  unfold execute. now rewrite Htable.
Qed.

Lemma has_columns_incl (cols cols' : list string) (row : Row) :
  incl cols' cols -> has_columns cols row -> has_columns cols' row.
Proof. intros Hincl H c Hc. apply H. now apply Hincl. Qed.

Ltac columns_present Hschema :=
  let row := fresh "row" in
  let Hin := fresh "Hin" in
  let c := fresh "c" in
  let Hc := fresh "Hc" in
  intros row Hin; split; intros c Hc; apply (Hschema row Hin);
  simpl in Hc |- *; tauto.

(** X3.  When SILVA holds a row with the variant's chromosome, position
    and alleles, [get_silva_score] runs one statement and answers with the
    first such row of the table: CHR, POS, REF and ALT repeat the variant,
    GENE is the row's [gene], RSCU its [#RSCU], dRSCU its [dRSCU], GERP its
    [#GERP++], CPG its [#CpG?] and CPGX its [CpG_exon]. *)
Theorem silva_returns_first_match (w : World) (self : Symetrics)
    (variant : VariantObject) (db : Database) (table : Table) (row0 : Row) :
  opens w (_db self) db ->
  assoc "SILVA" db = Some table ->
  table_with silva_columns table ->
  In row0 table ->
  keyed_by "#chrom" "pos" "ref" "alt" variant row0 ->
  exists before row after d,
    table = (before ++ row :: after)%list /\
    (forall r, In r before -> ~ keyed_by "#chrom" "pos" "ref" "alt" variant r) /\
    keyed_by "#chrom" "pos" "ref" "alt" variant row /\
    get_silva_score w self variant
    = ([Executed (silva_query variant)], Returned (Some d)) /\
    assoc "CHR" d = Some (_chr variant) /\
    assoc "POS" d = Some (_pos variant) /\
    assoc "REF" d = Some (_ref variant) /\
    assoc "ALT" d = Some (_alt variant) /\
    assoc "GENE" d = assoc "gene" row /\
    assoc "RSCU" d = assoc "#RSCU" row /\
    assoc "dRSCU" d = assoc "dRSCU" row /\
    assoc "GERP" d = assoc "#GERP++" row /\
    assoc "CPG" d = assoc "#CpG?" row /\
    assoc "CPGX" d = assoc "CpG_exon" row.
Proof.
  unfold opens. intros Hopen Htable Hschema Hin Hkey.
  destruct (execute_first_match db (silva_query variant) table row0)
    as (before & row & after & t & ts & Hsplit & Hbefore & Hw & Hp & Hexec);
    auto.
  { columns_present Hschema. }
  { now apply eval_where_variant. }
  apply eval_where_variant in Hw.
  assert (Hrow := Hw). destruct Hw as (Hc & Hpos & Hr & Ha).
  cbn in Hp. rewrite Hc, Hpos, Hr, Ha in Hp.
  destruct (assoc "gene" row) as [x4|] eqn:E4; [|discriminate].
  destruct (assoc "#RSCU" row) as [x5|] eqn:E5; [|discriminate].
  destruct (assoc "dRSCU" row) as [x6|] eqn:E6; [|discriminate].
  destruct (assoc "#GERP++" row) as [x7|] eqn:E7; [|discriminate].
  destruct (assoc "#CpG?" row) as [x8|] eqn:E8; [|discriminate].
  destruct (assoc "CpG_exon" row) as [x9|] eqn:E9; [|discriminate].
  injection Hp as <-.
  exists before, row, after.
  exists [("CHR", _chr variant); ("POS", _pos variant); ("REF", _ref variant);
          ("ALT", _alt variant); ("GENE", x4); ("RSCU", x5); ("dRSCU", x6);
          ("GERP", x7); ("CPG", x8); ("CPGX", x9)].
  rewrite E4, E5, E6, E7, E8, E9.
  split; [exact Hsplit|].
  split.
  { intros r Hr0 Hk. apply eval_where_variant in Hk.
    specialize (Hbefore r Hr0). unfold silva_query in Hbefore.
    cbn [q_where] in Hbefore. congruence. }
  split; [exact Hrow|].
  split.
  { unfold get_silva_score. run_lookup Hopen Hexec. reflexivity. }
  repeat split.
Qed.

Lemma silva_returns_first_match_witness :
  opens (world_of silva_store) (_db api) silva_store /\
  keyed_by "#chrom" "pos" "ref" "alt" variant_hg19 silva_row /\
  exists d,
    result (get_silva_score (world_of silva_store) api variant_hg19)
    = Returned (Some d) /\
    assoc "GENE" d = Some (VText "AKAP9") /\
    assoc "GERP" d = Some (VReal (4 # 1)) /\
    assoc "CPGX" d = Some (VInt 1).
Proof.
  assert (Hschema : table_with silva_columns [silva_row]).
  { intros row [<-|[]] c Hc. unfold silva_columns in Hc. simpl in Hc.
    repeat (destruct Hc as [<-|Hc]; [discriminate|]). destruct Hc. }
  assert (Hkey : keyed_by "#chrom" "pos" "ref" "alt" variant_hg19 silva_row)
    by (repeat split).
  split; [reflexivity|].
  split; [exact Hkey|].
  destruct (silva_returns_first_match (world_of silva_store) api variant_hg19
              silva_store [silva_row] silva_row eq_refl eq_refl Hschema
              (or_introl eq_refl) Hkey)
    as (before & row & after & d & Hsplit & _ & _ & Hrun & _ & _ & _ & _
        & Hgene & _ & _ & Hgerp & _ & Hcpgx).
  assert (Hrow : row = silva_row).
  { destruct before as [|b [|b' before]]; simpl in Hsplit.
    - now injection Hsplit.
    - discriminate Hsplit.
    - discriminate Hsplit. }
  subst row. exists d. rewrite Hrun.
  split; [reflexivity|].
  split; [exact Hgene|].
  split; [exact Hgerp | exact Hcpgx].
Defined.

(** X4.  For a variant tagged hg38 with a row in SYNVEP keyed by
    [pos_GRCh38], [get_synvep_score] answers with the first such row: the
    four key fields repeat the variant, GENE is the row's
    [HGNC_gene_symbol] and SYNVEP its [synVep]. *)
Theorem synvep_hg38_returns_first_match (w : World) (self : Symetrics)
    (variant : VariantObject) (db : Database) (table : Table) (row0 : Row) :
  _genome variant = hg38 ->
  opens w (_db self) db ->
  assoc "SYNVEP" db = Some table ->
  bridge_table table ->
  In row0 table ->
  keyed_by "chr" "pos_GRCh38" "ref" "alt" variant row0 ->
  exists before row after d,
    table = (before ++ row :: after)%list /\
    (forall r, In r before ->
       ~ keyed_by "chr" "pos_GRCh38" "ref" "alt" variant r) /\
    keyed_by "chr" "pos_GRCh38" "ref" "alt" variant row /\
    get_synvep_score w self variant
    = ([Executed (synvep_query variant)], Returned (Some d)) /\
    map fst d = ["CHR"; "POS"; "REF"; "ALT"; "GENE"; "SYNVEP"] /\
    assoc "CHR" d = Some (_chr variant) /\
    assoc "POS" d = Some (_pos variant) /\
    assoc "REF" d = Some (_ref variant) /\
    assoc "ALT" d = Some (_alt variant) /\
    assoc "GENE" d = assoc "HGNC_gene_symbol" row /\
    assoc "SYNVEP" d = assoc "synVep" row.
Proof.
  unfold opens. intros Hg Hopen Htable Hschema Hin Hkey.
  assert (Hq : synvep_query variant
               = {| q_select := ["chr"; "pos_GRCh38"; "ref"; "alt";
                                 "HGNC_gene_symbol"; "synVep"];
                    q_from := "SYNVEP";
                    q_where := where_variant "chr" "pos_GRCh38" "ref" "alt"
                                 variant |}).
  { unfold synvep_query. now rewrite Hg. }
  destruct (execute_first_match db (synvep_query variant) table row0)
    as (before & row & after & t & ts & Hsplit & Hbefore & Hw & Hp & Hexec);
    auto.
  { now rewrite Hq. }
  { rewrite Hq. columns_present Hschema. }
  { rewrite Hq. now apply eval_where_variant. }
  rewrite Hq in Hw, Hp, Hbefore. cbn [q_where q_select] in Hw, Hp, Hbefore.
  apply eval_where_variant in Hw.
  assert (Hrow := Hw). destruct Hw as (Hc & Hpos & Hr & Ha).
  cbn in Hp. rewrite Hc, Hpos, Hr, Ha in Hp.
  destruct (assoc "HGNC_gene_symbol" row) as [x4|] eqn:E4; [|discriminate].
  destruct (assoc "synVep" row) as [x5|] eqn:E5; [|discriminate].
  injection Hp as <-.
  exists before, row, after.
  exists [("CHR", _chr variant); ("POS", _pos variant); ("REF", _ref variant);
          ("ALT", _alt variant); ("GENE", x4); ("SYNVEP", x5)].
  rewrite E4, E5.
  split; [exact Hsplit|].
  split.
  { intros r Hr0 Hk. apply eval_where_variant in Hk.
    specialize (Hbefore r Hr0). congruence. }
  split; [exact Hrow|].
  split.
  { unfold get_synvep_score. run_lookup Hopen Hexec. reflexivity. }
  repeat split.
Qed.

Lemma synvep_hg38_returns_first_match_witness :
  _genome (variant_at 92134359 hg38) = hg38 /\
  opens (world_of bridge_both) (_db api) bridge_both /\
  keyed_by "chr" "pos_GRCh38" "ref" "alt" (variant_at 92134359 hg38)
    docstring_row /\
  exists d,
    result (get_synvep_score (world_of bridge_both) api
              (variant_at 92134359 hg38))
    = Returned (Some d) /\
    assoc "POS" d = Some (VInt 92134359) /\
    assoc "GENE" d = Some (VText "AKAP9") /\
    assoc "SYNVEP" d = Some (VReal (1 # 2)).
Proof.
  assert (Hschema : bridge_table [docstring_row; neighbour_row]).
  { intros row [<-|[<-|[]]] c Hc; unfold bridge_columns in Hc; simpl in Hc;
      repeat (destruct Hc as [<-|Hc]; [discriminate|]); destruct Hc. }
  assert (Hkey : keyed_by "chr" "pos_GRCh38" "ref" "alt"
                   (variant_at 92134359 hg38) docstring_row)
    by (repeat split).
  split; [reflexivity|].
  split; [reflexivity|].
  split; [exact Hkey|].
  destruct (synvep_hg38_returns_first_match (world_of bridge_both) api
              (variant_at 92134359 hg38) bridge_both
              [docstring_row; neighbour_row] docstring_row eq_refl eq_refl
              eq_refl Hschema (or_introl eq_refl) Hkey)
    as (before & row & after & d & Hsplit & Hbefore & _ & Hrun & _ & _ & Hpos
        & _ & _ & Hgene & Hsyn).
  assert (Hrow : row = docstring_row).
  { destruct before as [|b before]; simpl in Hsplit.
    - now injection Hsplit.
    - exfalso. injection Hsplit as Hb _. apply (Hbefore b); [now left|].
      rewrite <- Hb. exact Hkey. }
  subst row. exists d. rewrite Hrun.
  split; [reflexivity|].
  split; [exact Hpos|].
  split; [exact Hgene | exact Hsyn].
Defined.

(** ** The population-frequency lookup *)

(** X5.  [get_gnomad_data] never raises: whatever the stores hold and
    whichever variant it is given, the call returns, either [None] or a
    dict with the keys CHR, POS, REF, ALT, AC, AN, AF; a dict is returned
    only for a variant tagged hg38, after exactly one statement. *)
Theorem gnomad_always_returns (w : World) (self : Symetrics)
    (variant : VariantObject) :
  exists r,
    result (get_gnomad_data w self variant) = Returned r /\
    forall d, r = Some d ->
      map fst d = ["CHR"; "POS"; "REF"; "ALT"; "AC"; "AN"; "AF"] /\
      _genome variant = hg38 /\
      trace (get_gnomad_data w self variant)
      = [Executed (gnomad_query variant)].
Proof.
  unfold get_gnomad_data.
  destruct (_genome variant) eqn:Hg.
  - exists None. split; [reflexivity | discriminate].
  - unfold try_except_Error, enter, fetchall.
    destruct (assoc (database (_gnomad_db self)) (stores w)) as [db|];
      [|exists None; split; [reflexivity | discriminate]].
    cbn [bind emit ret app].
    destruct (execute db (gnomad_query variant)) as [[|t ts]|] eqn:Hexec.
    + exists None. split; [reflexivity | discriminate].
    + pose proof (execute_lengths _ _ _ _ Hexec) as Hlen. simpl in Hlen.
      cbn [bind emit ret app getitem nth_error List.length Nat.ltb Nat.leb].
      rewrite build_dict_in_range;
        [|cbn [forallb snd]; rewrite Hlen; reflexivity].
      eexists. split; [reflexivity|].
      intros d Hd. injection Hd as <-. repeat split.
    + exists None. split; [reflexivity | discriminate].
Qed.

Lemma gnomad_always_returns_witness :
  exists d,
    result (get_gnomad_data gnomad_twice api variant_hg38)
    = Returned (Some d) /\
    map fst d = ["CHR"; "POS"; "REF"; "ALT"; "AC"; "AN"; "AF"] /\
    trace (get_gnomad_data gnomad_twice api variant_hg38)
    = [Executed (gnomad_query variant_hg38)].
Proof.
  destruct (gnomad_always_returns gnomad_twice api variant_hg38)
    as (r & Hres & Hshape).
  destruct r as [d|].
  - exists d. destruct (Hshape d eq_refl) as (Hkeys & _ & Htrace).
    split; [exact Hres|]. split; [exact Hkeys | exact Htrace].
  - exfalso. discriminate Hres.
Defined.

(** X6.  For a variant tagged hg38 with a row in gnomad_db,
    [get_gnomad_data] answers with the first matching row of the table,
    later matches being ignored: the four key fields repeat the variant
    and AC, AN, AF are that row's [AC], [AN] and [AF]. *)
Theorem gnomad_returns_first_match (w : World) (self : Symetrics)
    (variant : VariantObject) (db : Database) (table : Table) (row0 : Row) :
  _genome variant = hg38 ->
  opens w (_gnomad_db self) db ->
  assoc "gnomad_db" db = Some table ->
  table_with gnomad_columns table ->
  In row0 table ->
  keyed_by "chr" "pos" "ref" "alt" variant row0 ->
  exists before row after d,
    table = (before ++ row :: after)%list /\
    (forall r, In r before -> ~ keyed_by "chr" "pos" "ref" "alt" variant r) /\
    keyed_by "chr" "pos" "ref" "alt" variant row /\
    get_gnomad_data w self variant
    = ([Executed (gnomad_query variant)], Returned (Some d)) /\
    assoc "CHR" d = Some (_chr variant) /\
    assoc "POS" d = Some (_pos variant) /\
    assoc "REF" d = Some (_ref variant) /\
    assoc "ALT" d = Some (_alt variant) /\
    assoc "AC" d = assoc "AC" row /\
    assoc "AN" d = assoc "AN" row /\
    assoc "AF" d = assoc "AF" row.
Proof.
  unfold opens. intros Hg Hopen Htable Hschema Hin Hkey.
  destruct (execute_first_match db (gnomad_query variant) table row0)
    as (before & row & after & t & ts & Hsplit & Hbefore & Hw & Hp & Hexec);
    auto.
  { columns_present Hschema. }
  { now apply eval_where_variant. }
  apply eval_where_variant in Hw.
  assert (Hrow := Hw). destruct Hw as (Hc & Hpos & Hr & Ha).
  cbn in Hp. rewrite Hc, Hpos, Hr, Ha in Hp.
  destruct (assoc "AC" row) as [x4|] eqn:E4; [|discriminate].
  destruct (assoc "AN" row) as [x5|] eqn:E5; [|discriminate].
  destruct (assoc "AF" row) as [x6|] eqn:E6; [|discriminate].
  injection Hp as <-.
  exists before, row, after.
  exists [("CHR", _chr variant); ("POS", _pos variant); ("REF", _ref variant);
          ("ALT", _alt variant); ("AC", x4); ("AN", x5); ("AF", x6)].
  rewrite E4, E5, E6.
  split; [exact Hsplit|].
  split.
  { intros r Hr0 Hk. apply eval_where_variant in Hk.
    specialize (Hbefore r Hr0). unfold gnomad_query in Hbefore.
    cbn [q_where] in Hbefore. congruence. }
  split; [exact Hrow|].
  split.
  { unfold get_gnomad_data. rewrite Hg. run_lookup Hopen Hexec. reflexivity. }
  repeat split.
Qed.

Lemma gnomad_returns_first_match_witness :
  _genome variant_hg38 = hg38 /\
  opens gnomad_twice (_gnomad_db api)
    [("gnomad_db", [gnomad_row 2; gnomad_row 5])] /\
  keyed_by "chr" "pos" "ref" "alt" variant_hg38 (gnomad_row 5) /\
  exists d,
    result (get_gnomad_data gnomad_twice api variant_hg38)
    = Returned (Some d) /\
    assoc "AC" d = Some (VInt 2).
Proof.
  assert (Hschema : table_with gnomad_columns [gnomad_row 2; gnomad_row 5]).
  { intros row [<-|[<-|[]]] c Hc; unfold gnomad_columns in Hc; simpl in Hc;
      repeat (destruct Hc as [<-|Hc]; [discriminate|]); destruct Hc. }
  assert (Hkey : keyed_by "chr" "pos" "ref" "alt" variant_hg38 (gnomad_row 5))
    by (repeat split).
  split; [reflexivity|].
  split; [reflexivity|].
  split; [exact Hkey|].
  destruct (gnomad_returns_first_match gnomad_twice api variant_hg38
              [("gnomad_db", [gnomad_row 2; gnomad_row 5])]
              [gnomad_row 2; gnomad_row 5] (gnomad_row 5) eq_refl eq_refl
              eq_refl Hschema (or_intror (or_introl eq_refl)) Hkey)
    as (before & row & after & d & Hsplit & Hbefore & _ & Hrun & _ & _ & _
        & _ & Hac & _).
  assert (Hrow : row = gnomad_row 2).
  { destruct before as [|b before]; simpl in Hsplit.
    - now injection Hsplit.
    - exfalso. injection Hsplit as Hb _. apply (Hbefore b); [now left|].
      rewrite <- Hb. repeat split. }
  subst row. exists d. rewrite Hrun.
  split; [reflexivity | exact Hac].
Defined.

(** ** Further properties of liftover *)







Lemma liftover_query_select_length (variant : VariantObject) :
  List.length (q_select (liftover_query variant)) = 6%nat.
Proof. now rewrite liftover_query_select. Qed.

Lemma other_build_differs (genome : GenomeReference) :
  other_build genome <> genome.
Proof. destruct genome; discriminate. Qed.

(** X8.  A call of [liftover] ends in exactly one of four ways: a variant
    of the opposite build, never of the build it was given, after one
    statement that fetched a row; an [IndexError] after one statement
    that fetched none; [None] with a logged failure after a statement
    that failed; [None] with a logged failure and no statement when the
    store did not open. *)
Theorem liftover_outcomes (w : World) (self : Symetrics)
    (variant : VariantObject) :
  (exists db t ts lifted,
     opens w (_db self) db /\
     execute db (liftover_query variant) = Some (t :: ts) /\
     liftover w self variant
     = ([Executed (liftover_query variant)], Returned (Some lifted)) /\
     _genome lifted = other_build (_genome variant) /\
     _genome lifted <> _genome variant) \/
  (exists db,
     opens w (_db self) db /\
     execute db (liftover_query variant) = Some [] /\
     liftover w self variant
     = ([Executed (liftover_query variant)], Raised IndexError)) \/
  (exists db,
     opens w (_db self) db /\
     execute db (liftover_query variant) = None /\
     liftover w self variant
     = ([Executed (liftover_query variant);
         LogError (connection_failed (_db self))], Returned None)) \/
  (assoc (database (_db self)) (stores w) = None /\
   liftover w self variant
   = ([LogError (connection_failed (_db self))], Returned None)).
Proof.
  destruct (assoc (database (_db self)) (stores w)) as [db|] eqn:Hopen.
  - destruct (execute db (liftover_query variant)) as [[|t ts]|] eqn:Hexec.
    + right. left. exists db. repeat split; auto.
      unfold liftover. now run_lookup Hopen Hexec.
    + left. exists db, t, ts.
      pose proof (execute_lengths _ _ _ _ Hexec) as Hlen.
      rewrite liftover_query_select_length in Hlen.
      destruct t as [|c [|p [|r [|a [|g [|s [|]]]]]]]; try discriminate Hlen.
      exists {| _chr := c; _pos := p; _ref := r; _alt := a;
                _genome := other_build (_genome variant) |}.
      split; [exact Hopen|]. split; [exact Hexec|].
      split.
      * unfold liftover. run_lookup Hopen Hexec.
        now rewrite new_reference_other.
      * split; [reflexivity | apply other_build_differs].
    + right. right. left. exists db. repeat split; auto.
      unfold liftover. now run_lookup Hopen Hexec.
  - right. right. right. split; [reflexivity|].
    unfold liftover, try_except_Error, enter. now rewrite Hopen.
Qed.

(** * Gene constraints from gnomAD *)

Lemma filter_map_commute {A B : Type} (f : A -> B) (p : B -> bool)
    (l : list A) :
  filter p (map f l) = map f (filter (fun a => p (f a)) l).
Proof.
  induction l as [|a l IH]; simpl; [reflexivity|].
  destruct (p (f a)); simpl; now rewrite IH.
Qed.

Lemma constraint_frame_selects (df : Frame) :
  constraint_frame df <->
  forallb (fun n => existsb (String.eqb n) (frame_columns df))
    constraint_columns = true.
Proof.
  unfold constraint_frame. rewrite forallb_forall. split; intros H n Hn.
  - apply existsb_exists. exists n. split; [now apply H | apply String.eqb_refl].
  - apply H in Hn. apply existsb_exists in Hn as (m & Hm & E).
    apply String.eqb_eq in E. now subst.
Qed.

Lemma get_gnomad_constraints_loaded (tsv : list (string * Frame))
    (path gene : string) (df : Frame) :
  assoc path tsv = Some df ->
  constraint_frame df ->
  get_gnomad_constraints tsv path gene
  = ([ReadCsv path],
     Returned (map (constraint_record df)
                 (filter (fun r => cell_is gene
                                     (frame_cell "gene" (frame_columns df) r))
                    (frame_rows df)))).
Proof.
  intros Hfile Hcols. apply constraint_frame_selects in Hcols.
  unfold get_gnomad_constraints, read_tsv, select_columns.
  rewrite Hfile. cbn [bind emit ret app]. rewrite Hcols.
  cbn [bind emit ret app].
  unfold to_dict_records, where_gene. cbn [frame_columns frame_rows].
  rewrite filter_map_commute, map_map.
  reflexivity.
Qed.

(** X9.  When the constraint file is there and has the six columns gene,
    transcript, syn_z, mis_z, lof_z, pLI, [get_gnomad_constraints] reads
    that one file and returns one record per row whose gene cell is the
    requested gene, in file order; each record has exactly those six keys
    in that order, whatever other columns the file holds and in whatever
    order, and its gene is the one asked for.  A gene with no row gives the
    empty list. *)
Theorem gnomad_constraints_records (tsv : list (string * Frame))
    (path gene : string) (df : Frame) :
  assoc path tsv = Some df ->
  constraint_frame df ->
  exists records,
    get_gnomad_constraints tsv path gene = ([ReadCsv path], Returned records) /\
    records
    = map (constraint_record df)
        (filter (fun r => cell_is gene (frame_cell "gene" (frame_columns df) r))
           (frame_rows df)) /\
    (forall rec, In rec records ->
       map fst rec = constraint_columns /\
       assoc "gene" rec = Some (Some (VText gene))) /\
    ((forall r, In r (frame_rows df) ->
        frame_cell "gene" (frame_columns df) r <> Some (VText gene)) ->
     records = []).
Proof.
  intros Hfile Hcols.
  exists (map (constraint_record df)
            (filter (fun r => cell_is gene
                                (frame_cell "gene" (frame_columns df) r))
               (frame_rows df))).
  split; [apply get_gnomad_constraints_loaded; assumption|].
  split; [reflexivity|].
  split.
  - intros rec Hrec. apply in_map_iff in Hrec as (r & <- & Hr).
    apply filter_In in Hr as [_ Hr].
    split; [reflexivity|].
    unfold constraint_record. cbn [map constraint_columns assoc String.eqb].
    simpl.
    destruct (frame_cell "gene" (frame_columns df) r) as [[n|q|s]|];
      try discriminate Hr.
    simpl in Hr. apply String.eqb_eq in Hr. now subst.
  - intro Hnone. rewrite filter_none; [reflexivity|].
    intros r Hr. specialize (Hnone r Hr).
    destruct (frame_cell "gene" (frame_columns df) r) as [[n|q|s]|];
      try reflexivity.
    simpl. apply String.eqb_neq. congruence.
Qed.

Lemma gnomad_frame_has_columns : constraint_frame gnomad_frame.
Proof.
  intros name Hname. unfold constraint_columns in Hname. simpl in Hname |- *.
  tauto.
Defined.

Lemma gnomad_constraints_records_witness :
  assoc "gnomad.tsv" gnomad_files = Some gnomad_frame /\
  constraint_frame gnomad_frame /\
  result (get_gnomad_constraints gnomad_files "gnomad.tsv" "A1BG")
  = Returned
      [ [("gene", Some (VText "A1BG")); ("transcript", Some (VText "ENST1"));
         ("syn_z", Some (VReal (1 # 2))); ("mis_z", Some (VReal (1 # 4)));
         ("lof_z", Some (VReal (3 # 4))); ("pLI", Some (VReal (1 # 100)))];
        [("gene", Some (VText "A1BG")); ("transcript", Some (VText "ENST3"));
         ("syn_z", Some (VReal (1 # 3))); ("mis_z", None);
         ("lof_z", Some (VReal (2 # 3))); ("pLI", None)] ] /\
  result (get_gnomad_constraints gnomad_files "gnomad.tsv" "TP53")
  = Returned [].
Proof.
  destruct (gnomad_constraints_records gnomad_files "gnomad.tsv" "A1BG"
              gnomad_frame eq_refl gnomad_frame_has_columns)
    as (records & Hrun & Hrecords & _).
  destruct (gnomad_constraints_records gnomad_files "gnomad.tsv" "TP53"
              gnomad_frame eq_refl gnomad_frame_has_columns)
    as (none & Hrun' & Hnone & _).
  split; [reflexivity|].
  split; [exact gnomad_frame_has_columns|].
  rewrite Hrun, Hrecords, Hrun', Hnone.
  split; reflexivity.
Defined.


(** * Further properties of the gene-level scores *)







(** ** What the scaling keeps and what it normalises *)





Lemma total_scaled (f : R -> R) (c : R) (xs : list R) :
  total (map (fun x => (f x * c)%R) xs) = (total (map f xs) * c)%R.
Proof.
  induction xs as [|a xs IH]; simpl; [ring|]. rewrite IH. ring.
Qed.

Lemma total_shifted (m : R) (xs : list R) :
  total (map (fun x => (x - m)%R) xs)
  = (total xs - INR (List.length xs) * m)%R.
Proof.
  induction xs as [|a xs IH]; [simpl; ring|].
  cbn [map total fold_right List.length]. fold (total xs) in *.
  fold (total (map (fun x => (x - m)%R) xs)). rewrite IH, S_INR. ring.
Qed.

Lemma total_nonneg (xs : list R) :
  (forall x, In x xs -> (0 <= x)%R) -> (0 <= total xs)%R.
Proof.
  induction xs as [|a xs IH]; intro H; simpl; [lra|].
  pose proof (H a (or_introl eq_refl)).
  assert (0 <= total xs)%R by (apply IH; intros x Hx; apply H; now right).
  unfold total in *. lra.
Qed.

Lemma length_positive (xs : list R) : xs <> [] -> (0 < INR (List.length xs))%R.
Proof.
  destruct xs as [|a xs]; [congruence|]. intros _.
  apply lt_0_INR. simpl. apply Nat.lt_0_succ.
Qed.

Lemma variance_nonneg (xs : list R) : xs <> [] -> (0 <= variance xs)%R.
Proof.
  intro Hne. unfold variance, mean. rewrite length_map.
  apply Rmult_le_pos.
  - apply total_nonneg. intros y Hy. apply in_map_iff in Hy as (x & <- & _).
    apply Rle_0_sqr.
  - left. apply Rinv_0_lt_compat. now apply length_positive.
Qed.

Lemma mean_transform (xs : list R) :
  xs <> [] -> mean (map (transform xs) xs) = 0%R.
Proof.
  intro Hne. pose proof (length_positive xs Hne) as Hn.
  pose proof (scale_nonzero xs) as Hs.
  unfold mean at 1. rewrite length_map. unfold transform, Rdiv.
  rewrite (total_scaled (fun x => (x - mean xs)%R) (/ scale xs)).
  rewrite total_shifted. unfold mean. field. split; lra.
Qed.

Lemma variance_transform (xs : list R) :
  xs <> [] ->
  variance (map (transform xs) xs)
  = (variance xs * (/ scale xs * / scale xs))%R.
Proof.
  intro Hne. pose proof (length_positive xs Hne) as Hn.
  unfold variance at 1. rewrite (mean_transform xs Hne).
  rewrite map_map. unfold mean at 1. rewrite length_map.
  rewrite (map_ext _ (fun x => ((x - mean xs) * (x - mean xs)
                                * (/ scale xs * / scale xs))%R)).
  - rewrite (total_scaled (fun x => ((x - mean xs) * (x - mean xs))%R)).
    unfold variance, mean. rewrite length_map. unfold Rdiv. ring.
  - intro x. unfold transform, Rdiv. ring.
Qed.

(** X13.  The scaler that [get_prop_score] fits on the whole [z] column
    standardises it: the scaled column has as many values as the table
    has rows and mean zero, and, unless all raw values coincide, variance
    one. *)
Theorem scaled_column_is_standardized (xs : list R) :
  xs <> [] ->
  exists ys,
    fit_transform xs = ([], Returned ys) /\
    List.length ys = List.length xs /\
    mean ys = 0%R /\
    (variance xs <> 0%R -> variance ys = 1%R).
Proof.
  intro Hne. exists (map (transform xs) xs).
  split; [now apply fit_transform_nonempty|].
  split; [apply length_map|].
  split; [now apply mean_transform|].
  intro Hvar. rewrite (variance_transform xs Hne).
  pose proof (variance_nonneg xs Hne) as Hpos.
  assert (Hs : scale xs = sqrt (variance xs)).
  { unfold scale. destruct (Req_dec_T (sqrt (variance xs)) 0) as [E|N];
      [|reflexivity].
    exfalso. apply Hvar. now apply sqrt_eq_0. }
  assert (Hsq : (scale xs * scale xs)%R = variance xs).
  { rewrite Hs. now apply sqrt_sqrt. }
  pose proof (scale_nonzero xs) as Hnz.
  rewrite <- Hsq. field. exact Hnz.
Qed.

Lemma scaled_column_is_standardized_witness :
  [1; 2; 3; 4; 5]%R <> [] /\
  exists ys,
    fit_transform [1; 2; 3; 4; 5]%R = ([], Returned ys) /\
    List.length ys = 5%nat /\
    mean ys = 0%R.
Proof.
  split; [discriminate|].
  destruct (scaled_column_is_standardized [1; 2; 3; 4; 5]%R)
    as (ys & Hrun & Hlen & Hmean & _); [discriminate|].
  exists ys. split; [exact Hrun|]. split; [exact Hlen | exact Hmean].
Defined.




